(** * MERIS Level-1 mapper ([nansat/mappers/mapper_meris_l1.py])

    A shallow embedding of [Mapper.__init__] and the properties of the band
    table it builds.  The constructor is a straight-line Python method that
    - calls into its two base classes ([Envisat] and [VRT]),
    - builds a list of nested dictionaries and mutates them in place, and
    - may raise [WrongMapperError], and lets every exception of a base class
      through as it is.

    The embedding keeps these three aspects: the band dictionaries live in a
    store and the Python list [metaDict] holds references into it, the base
    classes are an interface whose methods thread the instance attributes
    they own, and every call into a base class is recorded in a trace. *)

From stdpp Require Import gmap strings list pretty.
From Stdlib Require Import ZArith.

#[local] Open Scope Z_scope.
#[local] Open Scope string_scope.
#[local] Open Scope list_scope.

(** ** Python values and dictionaries *)

(** The values stored under the keys of a band dictionary: integers
    ([SourceBand], [DataType]), strings (everything else) and [None], which
    [GetMetadataItem] returns for an absent item. *)
Inductive value : Type :=
  | VInt (n : Z)
  | VStr (s : string)
  | VNone.

#[global] Instance value_eq_dec : EqDecision value.
Proof. solve_decision. Defined.

(** One element of [metaDict]: [{'src': {...}, 'dst': {...}}]. *)
Record bandDict : Type := BandDict {
  src : gmap string value;
  dst : gmap string value
}.

#[global] Instance bandDict_inhabited : Inhabited bandDict :=
  populate (BandDict ∅ ∅).

(** [bandDict['src'][k] = v] and [bandDict['dst'][k] = v]. *)
Definition set_src (k : string) (v : value) (b : bandDict) : bandDict :=
  BandDict (<[k := v]> (src b)) (dst b).

Definition set_dst (k : string) (v : value) (b : bandDict) : bandDict :=
  BandDict (src b) (<[k := v]> (dst b)).

(** A resized VRT built from an ADS, as far as the mapper looks into it:
    [adsVRT.fileName] and the metadata of [adsVRT.dataset.GetRasterBand(1)]. *)
Record VRT : Type := MkVRT {
  fileName : string;
  RasterBand1 : gmap string string
}.

(** [band.GetMetadataItem(k)]: the item, or [None] when there is none. *)
Definition GetMetadataItem (k : string) (md : gmap string string) : value :=
  match md !! k with
  | Some s => VStr s
  | None => VNone
  end.

(** ** Python built-ins used by the constructor *)

(** [s[0:n]]: slicing never raises, it truncates. *)
Definition py_prefix (n : nat) (s : string) : string := String.substring 0 n s.

(** [l[:-1]]: a new list holding the same elements but the last. *)
Definition py_but_last {A} (l : list A) : list A :=
  take (length l - 1)%nat l.

(** [range(a, b)]. *)
Definition py_range (a b : Z) : list Z := seqZ a (b - a).

(** ** The base classes *)

(** Exceptions, by class.  The constructor has no [try]: an exception of a
    base-class method leaves it as the exception it is, so the classes the
    constructor's own code can raise ([WrongMapperError] on line 46,
    [IndexError] from [scales[i]], [KeyError] from a dictionary lookup) are
    also classes a method may raise.  [Raised e] is an exception of any
    other class, [e] being what tells such exceptions apart. *)
Inductive error (exn : Type) : Type :=
  | WrongMapperError
  | IndexError
  | KeyError
  | Raised (e : exn).
#[global] Arguments WrongMapperError {exn}.
#[global] Arguments IndexError {exn}.
#[global] Arguments KeyError {exn}.
#[global] Arguments Raised {exn} e.

(** What [Envisat] and [VRT] contribute.  [attrs] is the state of the
    instance attributes they own; every method takes it and either raises
    ([inl]) or returns the new attributes and its result ([inr]).
    [Envisat.__init__] returns the value it stores in [self.product]. *)
Class BaseClasses : Type := {
  dataset : Type;
  scalar : Type;
  exn : Type;
  attrs : Type;
  py_str : scalar → string;
  Envisat__init__ :
    string → gmap string string → attrs → error exn + attrs * string;
  read_scaling_gads : list Z → attrs → error exn + attrs * list scalar;
  get_ads_vrts :
    dataset → list string → Z → Z → attrs → error exn + attrs * list VRT;
  VRT__init__ : dataset → attrs → error exn + attrs * unit;
  _create_bands : list bandDict → attrs → error exn + attrs * unit;
  _set_envisat_time : gmap string string → attrs → error exn + attrs * unit;
  add_geolocation_from_ads :
    dataset → Z → Z → attrs → error exn + attrs * unit
}.

(** The base-class methods the constructor calls, in source order. *)
Inductive method : Type :=
  | MEnvisatInit
  | MReadScalingGads
  | MGetAdsVrts
  | MVRTInit
  | MCreateBands
  | MSetEnvisatTime
  | MAddGeolocation.

#[global] Instance method_eq_dec : EqDecision method.
Proof. solve_decision. Defined.

(** The exception a method raised, if it raised. *)
Definition failure {E T} (r : E + T) : option E :=
  match r with
  | inl e => Some e
  | inr _ => None
  end.

Section Mapper.
Context `{BC : BaseClasses}.

(** Calls into the base classes, with their arguments and what came back. *)
Inductive event : Type :=
  | EvEnvisatInit (fileName : string) (gdalMetadata : gmap string string)
      (r : error exn + string)
  | EvReadScalingGads (indeces : list Z) (r : error exn + list scalar)
  | EvGetAdsVrts (gdalDataset : dataset) (adsNames : list string)
      (zoomSize step : Z) (r : error exn + list VRT)
  | EvVRTInit (gdalDataset : dataset) (r : error exn + unit)
  | EvCreateBands (metaDict : list bandDict) (r : error exn + unit)
  | EvSetEnvisatTime (gdalMetadata : gmap string string) (r : error exn + unit)
  | EvAddGeolocation (gdalDataset : dataset) (zoomSize step : Z)
      (r : error exn + unit).

(** ** State and the constructor's monad *)

Definition loc : Type := nat.

(** The store of band dictionaries, the attributes of the base classes and
    [self.subVRTs]. *)
Record World : Type := MkWorld {
  heap : list bandDict;
  base : attrs;
  subVRTs : gmap string (list VRT)
}.

Definition with_heap (h : list bandDict) (w : World) : World :=
  MkWorld h (base w) (subVRTs w).

Definition with_base (a : attrs) (w : World) : World :=
  MkWorld (heap w) a (subVRTs w).

Definition with_subVRTs (s : gmap string (list VRT)) (w : World) : World :=
  MkWorld (heap w) (base w) s.

(** A run ends with a value or an exception, in some world, having made
    some calls.  An exception keeps the world as it was when raised. *)
Record Run (A : Type) : Type := MkRun {
  outcome : error exn + A;
  world : World;
  trace : list event
}.
#[global] Arguments MkRun {A} _ _ _.
#[global] Arguments outcome {A} _.
#[global] Arguments world {A} _.
#[global] Arguments trace {A} _.

Definition M (A : Type) : Type := World → Run A.

Definition ret {A} (x : A) : M A := λ w, MkRun (inr x) w [].

Definition raise {A} (e : error exn) : M A := λ w, MkRun (inl e) w [].

(** A run that comes after the calls [t]. *)
Definition after {A} (t : list event) (r : Run A) : Run A :=
  MkRun (outcome r) (world r) (t ++ trace r).

Definition bind {A B} (m : M A) (k : A → M B) : M B := λ w,
  let r := m w in
  match outcome r with
  | inl e => MkRun (inl e) (world r) (trace r)
  | inr x => after (trace r) (k x (world r))
  end.

#[local] Notation "x ← m ; k" := (bind m (λ x, k))
  (at level 20, m at level 100, k at level 200, only parsing).
#[local] Notation "m ;; k" := (bind m (λ _, k))
  (at level 100, k at level 200, only parsing, right associativity).

(** A call of a base-class method. *)
Definition call {T} (ev : error exn + T → event)
    (meth : attrs → error exn + attrs * T) : M T := λ w,
  match meth (base w) with
  | inl e => MkRun (inl e) w [ev (inl e)]
  | inr (a, x) => MkRun (inr x) (with_base a w) [ev (inr x)]
  end.

(** A dictionary display allocates a fresh object. *)
Definition alloc (b : bandDict) : M loc := λ w,
  MkRun (inr (length (heap w))) (with_heap (heap w ++ [b]) w) [].

(** In-place update of the object behind a reference. *)
Definition mutate (r : loc) (f : bandDict → bandDict) : M unit := λ w,
  MkRun (inr tt) (with_heap (alter f r (heap w)) w) [].

Definition deref (r : loc) : M bandDict := λ w,
  MkRun (inr (heap w !!! r)) w [].

(** [self.subVRTs = s] and [self.subVRTs[k]]. *)
Definition set_self_subVRTs (s : gmap string (list VRT)) : M unit := λ w,
  MkRun (inr tt) (with_subVRTs s w) [].

Definition self_subVRTs (k : string) : M (list VRT) := λ w,
  match subVRTs w !! k with
  | Some v => MkRun (inr v) w []
  | None => MkRun (inl KeyError) w []
  end.

(** [[d1, d2, ...]]: a list display of dictionary displays. *)
Fixpoint new_list (l : list bandDict) : M (list loc) :=
  match l with
  | [] => ret []
  | b :: l' => r ← alloc b; rs ← new_list l'; ret (r :: rs)
  end.

(** [for x in l: body]. *)
Fixpoint for_each {A} (l : list A) (body : A → M unit) : M unit :=
  match l with
  | [] => ret tt
  | x :: l' => body x;; for_each l' body
  end.

(** [for i, x in enumerate(l): body], counting from [i]. *)
Fixpoint for_enumerate {A} (i : nat) (l : list A) (body : nat → A → M unit)
    : M unit :=
  match l with
  | [] => ret tt
  | x :: l' => body i x;; for_enumerate (S i) l' body
  end.

(** [scales[i]] for a non-negative [i]. *)
Definition index {A} (l : list A) (i : nat) : M A :=
  match l !! i with
  | Some x => ret x
  | None => raise IndexError
  end.

(** The dictionaries a list of references stands for. *)
Definition snapshot (l : list loc) : M (list bandDict) := λ w,
  MkRun (inr ((λ r, heap w !!! r) <$> l)) w [].

(** ** The band table *)

Definition radiance (fileName : string) (band : Z) (wavelength : string)
    : bandDict :=
  BandDict
    {[ "SourceFilename" := VStr fileName; "SourceBand" := VInt band ]}
    {[ "wkv" := VStr "toa_outgoing_spectral_radiance";
       "wavelength" := VStr wavelength ]}.

(** The list display of lines 48-96. *)
Definition metaDict_literal (fileName : string) : list bandDict :=
  [ radiance fileName 1 "413";
    radiance fileName 2 "443";
    radiance fileName 3 "490";
    radiance fileName 4 "510";
    radiance fileName 5 "560";
    radiance fileName 6 "620";
    radiance fileName 7 "665";
    radiance fileName 8 "681";
    radiance fileName 9 "709";
    radiance fileName 10 "753";
    radiance fileName 11 "761";
    radiance fileName 12 "778";
    radiance fileName 13 "864";
    radiance fileName 14 "849";
    radiance fileName 15 "900";
    BandDict
      {[ "SourceFilename" := VStr fileName; "SourceBand" := VInt 16;
         "DataType" := VInt 1 ]}
      {[ "wkv" := VStr "quality_flags"; "suffix" := VStr "l1" ]} ].

(** [2  # default for meris L1 DataType UInt16] *)
Definition UInt16 : Z := 2.

(** The dictionary appended for one ADS VRT (lines 121-127). *)
Definition ads_bandDict (adsVRT : VRT) : bandDict :=
  BandDict
    {[ "SourceFilename" := VStr (fileName adsVRT); "SourceBand" := VInt 1 ]}
    {[ "name" := GetMetadataItem "name" (RasterBand1 adsVRT);
       "units" := GetMetadataItem "units" (RasterBand1 adsVRT) ]}.

Definition adsNames : list string :=
  [ "sun zenith angles"; "sun azimuth angles"; "zonal winds";
    "meridional winds" ].

(** [for adsVRT in self.subVRTs['adsVRTs']: metaDict.append({...})] *)
Fixpoint append_ads (metaDict : list loc) (vrts : list VRT) : M (list loc) :=
  match vrts with
  | [] => ret metaDict
  | adsVRT :: vrts' =>
      r ← alloc (ads_bandDict adsVRT);
      append_ads (metaDict ++ [r]) vrts'
  end.

(** [Mapper.__init__] *)
Definition Mapper__init__ (fileName : string) (gdalDataset : dataset)
    (gdalMetadata : gmap string string)
    (geolocation : bool) (zoomSize step : Z) : M unit :=
  product ← call (EvEnvisatInit fileName gdalMetadata)
                 (Envisat__init__ fileName gdalMetadata);
  if bool_decide (py_prefix 9 product ≠ "MER_FRS_1")
     && bool_decide (py_prefix 9 product ≠ "MER_RR__1")
  then raise WrongMapperError
  else
    metaDict ← new_list (metaDict_literal fileName);
    for_each metaDict (λ bandDict,
      b ← deref bandDict;
      (if bool_decide (src b !! "DataType" = None)
       then mutate bandDict (set_src "DataType" (VInt UInt16))
       else ret tt);;
      b ← deref bandDict;
      match dst b !! "wavelength" with
      | Some wavelength => mutate bandDict (set_dst "suffix" wavelength)
      | None => ret tt
      end);;
    scales ← call (EvReadScalingGads (py_range 7 22))
                  (read_scaling_gads (py_range 7 22));
    for_enumerate 0 (py_but_last metaDict) (λ i bandDict,
      s ← index scales i;
      mutate bandDict (set_src "ScaleRatio" (VStr (py_str s))));;
    vrts ← call (EvGetAdsVrts gdalDataset adsNames zoomSize step)
                (get_ads_vrts gdalDataset adsNames zoomSize step);
    set_self_subVRTs {[ "adsVRTs" := vrts ]};;
    adsVRTs ← self_subVRTs "adsVRTs";
    metaDict ← append_ads metaDict adsVRTs;
    call (EvVRTInit gdalDataset) (VRT__init__ gdalDataset);;
    bands ← snapshot metaDict;
    call (EvCreateBands bands) (_create_bands bands);;
    call (EvSetEnvisatTime gdalMetadata) (_set_envisat_time gdalMetadata);;
    if geolocation
    then call (EvAddGeolocation gdalDataset zoomSize step)
              (add_geolocation_from_ads gdalDataset zoomSize step)
    else ret tt.

(** ** What the loops compute

    Pure readings of the two annotation loops, used to state what the
    store holds once they have run. *)

(** One pass of the loop of lines 99-103 over a dictionary. *)
Definition annotate (b : bandDict) : bandDict :=
  let b1 :=
    if bool_decide (src b !! "DataType" = None)
    then set_src "DataType" (VInt UInt16) b
    else b in
  match dst b1 !! "wavelength" with
  | Some wavelength => set_dst "suffix" wavelength b1
  | None => b1
  end.

(** The loop of lines 108-109 over the dictionaries [l], counting from [i],
    when [scales] is long enough. *)
Fixpoint with_scales (scales : list scalar) (i : nat) (l : list bandDict)
    : list bandDict :=
  match l with
  | [] => []
  | b :: l' =>
      match scales !! i with
      | Some s => set_src "ScaleRatio" (VStr (py_str s)) b
      | None => b
      end :: with_scales scales (S i) l'
  end.

(** The 16 static dictionaries once both loops have run. *)
Definition static_bands (fileName : string) (scales : list scalar)
    : list bandDict :=
  with_scales scales 0 (py_but_last (annotate <$> metaDict_literal fileName))
  ++ drop 15 (annotate <$> metaDict_literal fileName).

(** The wavelengths of the 15 radiance bands, in table order. *)
Definition radiance_wavelengths : list string :=
  [ "413"; "443"; "490"; "510"; "560"; "620"; "665"; "681"; "709"; "753";
    "761"; "778"; "864"; "849"; "900" ].

(** Projections of a trace. *)
Definition created_bands (t : list event) : list (list bandDict) :=
  omap (λ e, match e with EvCreateBands l _ => Some l | _ => None end) t.

Definition scaling_reads (t : list event)
    : list (list Z * (error exn + list scalar)) :=
  omap (λ e, match e with EvReadScalingGads l r => Some (l, r) | _ => None end)
       t.

Definition ads_requests (t : list event)
    : list (error exn + list VRT) :=
  omap (λ e, match e with EvGetAdsVrts _ _ _ _ r => Some r | _ => None end) t.

Definition geolocations (t : list event)
    : list (dataset * Z * Z * (error exn + unit)) :=
  omap (λ e, match e with
             | EvAddGeolocation d z s r => Some (d, z, s, r)
             | _ => None
             end) t.

(** ** Calls and paths

    Readings of the trace and of the whole constructor, used to state what
    holds on every path. *)

(** The method an event is a call of, and the exception it ended with. *)
Definition event_method (ev : event) : method :=
  match ev with
  | EvEnvisatInit _ _ _ => MEnvisatInit
  | EvReadScalingGads _ _ => MReadScalingGads
  | EvGetAdsVrts _ _ _ _ _ => MGetAdsVrts
  | EvVRTInit _ _ => MVRTInit
  | EvCreateBands _ _ => MCreateBands
  | EvSetEnvisatTime _ _ => MSetEnvisatTime
  | EvAddGeolocation _ _ _ _ => MAddGeolocation
  end.

Definition event_exn (ev : event) : option (error exn) :=
  match ev with
  | EvEnvisatInit _ _ r => failure r
  | EvReadScalingGads _ r => failure r
  | EvGetAdsVrts _ _ _ _ r => failure r
  | EvVRTInit _ r => failure r
  | EvCreateBands _ r => failure r
  | EvSetEnvisatTime _ r => failure r
  | EvAddGeolocation _ _ _ r => failure r
  end.

(** The arguments a call must carry, given those of the constructor. *)
Definition passes_arguments (fileName : string) (gdalDataset : dataset)
    (gdalMetadata : gmap string string) (zoomSize step : Z) (ev : event)
    : Prop :=
  match ev with
  | EvEnvisatInit f md _ => f = fileName ∧ md = gdalMetadata
  | EvReadScalingGads indeces _ =>
      indeces = [7; 8; 9; 10; 11; 12; 13; 14; 15; 16; 17; 18; 19; 20; 21]
  | EvGetAdsVrts ds names z st _ =>
      ds = gdalDataset ∧ names = adsNames ∧ z = zoomSize ∧ st = step
  | EvVRTInit ds _ => ds = gdalDataset
  | EvCreateBands metaDict _ => (16 ≤ length metaDict)%nat
  | EvSetEnvisatTime md _ => md = gdalMetadata
  | EvAddGeolocation ds z st _ =>
      ds = gdalDataset ∧ z = zoomSize ∧ st = step
  end.

(** The run of the constructor from [w], path by path: which method results
    lead where, with the store and the calls made on the way. *)
Definition Mapper__init__paths (fileName : string) (gdalDataset : dataset)
    (gdalMetadata : gmap string string)
    (geolocation : bool) (zoomSize step : Z) (w : World) : Run unit :=
  match Envisat__init__ fileName gdalMetadata (base w) with
  | inl e =>
      MkRun (inl e) (MkWorld (heap w) (base w) (subVRTs w))
        [EvEnvisatInit fileName gdalMetadata (inl e)]
  | inr (a1, product) =>
    let ev1 := EvEnvisatInit fileName gdalMetadata (inr product) in
    if bool_decide (py_prefix 9 product ≠ "MER_FRS_1")
       && bool_decide (py_prefix 9 product ≠ "MER_RR__1")
    then MkRun (inl WrongMapperError) (MkWorld (heap w) a1 (subVRTs w)) [ev1]
    else
    match read_scaling_gads (py_range 7 22) a1 with
    | inl e =>
        MkRun (inl e)
          (MkWorld (heap w ++ (annotate <$> metaDict_literal fileName)) a1
             (subVRTs w))
          [ev1; EvReadScalingGads (py_range 7 22) (inl e)]
    | inr (a2, scales) =>
      let ev2 := EvReadScalingGads (py_range 7 22) (inr scales) in
      let static := static_bands fileName scales in
      if decide (15 ≤ length scales)%nat then
        match get_ads_vrts gdalDataset adsNames zoomSize step a2 with
        | inl e =>
            MkRun (inl e) (MkWorld (heap w ++ static) a2 (subVRTs w))
              [ev1; ev2;
               EvGetAdsVrts gdalDataset adsNames zoomSize step (inl e)]
        | inr (a3, vrts) =>
          let ev3 :=
            EvGetAdsVrts gdalDataset adsNames zoomSize step (inr vrts) in
          let bands := static ++ (ads_bandDict <$> vrts) in
          let h := heap w ++ bands in
          let s : gmap string (list VRT) := {[ "adsVRTs" := vrts ]} in
          match VRT__init__ gdalDataset a3 with
          | inl e =>
              MkRun (inl e) (MkWorld h a3 s)
                [ev1; ev2; ev3; EvVRTInit gdalDataset (inl e)]
          | inr (a4, _) =>
            let ev4 := EvVRTInit gdalDataset (inr tt) in
            match _create_bands bands a4 with
            | inl e =>
                MkRun (inl e) (MkWorld h a4 s)
                  [ev1; ev2; ev3; ev4; EvCreateBands bands (inl e)]
            | inr (a5, _) =>
              let ev5 := EvCreateBands bands (inr tt) in
              match _set_envisat_time gdalMetadata a5 with
              | inl e =>
                  MkRun (inl e) (MkWorld h a5 s)
                    [ev1; ev2; ev3; ev4; ev5;
                     EvSetEnvisatTime gdalMetadata (inl e)]
              | inr (a6, _) =>
                let ev6 := EvSetEnvisatTime gdalMetadata (inr tt) in
                if geolocation then
                  match add_geolocation_from_ads gdalDataset zoomSize step a6
                  with
                  | inl e =>
                      MkRun (inl e) (MkWorld h a6 s)
                        [ev1; ev2; ev3; ev4; ev5; ev6;
                         EvAddGeolocation gdalDataset zoomSize step (inl e)]
                  | inr (a7, _) =>
                      MkRun (inr tt) (MkWorld h a7 s)
                        [ev1; ev2; ev3; ev4; ev5; ev6;
                         EvAddGeolocation gdalDataset zoomSize step (inr tt)]
                  end
                else
                  MkRun (inr tt) (MkWorld h a6 s)
                    [ev1; ev2; ev3; ev4; ev5; ev6]
              end
            end
          end
        end
      else
        MkRun (inl IndexError) (MkWorld (heap w ++ static) a2 (subVRTs w))
          [ev1; ev2]
    end
  end.

(** The loop of lines 99-103 on its own, over any list of references. *)
Definition default_fill (metaDict : list loc) : M unit :=
  for_each metaDict (λ bandDict,
    b ← deref bandDict;
    (if bool_decide (src b !! "DataType" = None)
     then mutate bandDict (set_src "DataType" (VInt UInt16))
     else ret tt);;
    b ← deref bandDict;
    match dst b !! "wavelength" with
    | Some wavelength => mutate bandDict (set_dst "suffix" wavelength)
    | None => ret tt
    end).

(** ** Running the monad *)

Lemma bind_pure {A B} (m : M A) (k : A → M B) w x w' :
  m w = MkRun (inr x) w' [] → bind m k w = k x w'.
Proof. intros E. unfold bind. rewrite E. cbn. by destruct (k x w'). Qed.

Lemma bind_call {T B} ev (meth : attrs → error exn + attrs * T) (k : T → M B) w :
  bind (call ev meth) k w =
  match meth (base w) with
  | inl e => MkRun (inl e) w [ev (inl e)]
  | inr (a, x) =>
      MkRun (outcome (k x (with_base a w))) (world (k x (with_base a w)))
            (ev (inr x) :: trace (k x (with_base a w)))
  end.
Proof. unfold bind, call. by destruct (meth (base w)) as [e|[a x]]. Qed.

Lemma alter_middle {A} (f : A → A) (h : list A) x t :
  alter f (length h) (h ++ x :: t) = h ++ f x :: t.
Proof. induction h as [|y h IH]; cbn; [done | by f_equal]. Qed.

Lemma snoc_app {A} (h : list A) x t : h ++ x :: t = (h ++ [x]) ++ t.
Proof. by rewrite <- app_assoc. Qed.

Lemma new_list_run l h a s :
  new_list l (MkWorld h a s) =
  MkRun (inr (seq (length h) (length l))) (MkWorld (h ++ l) a s) [].
Proof.
  revert h. induction l as [|b l IH]; intros h.
  - cbn. by rewrite app_nil_r.
  - cbn [new_list]. rewrite (bind_pure _ _ _ (length h) (MkWorld (h ++ [b]) a s))
      by reflexivity.
    rewrite (bind_pure _ _ _ _ _ (IH _)). unfold ret.
    rewrite length_app, <- snoc_app. cbn [length seq].
    by replace (length h + 1)%nat with (S (length h)) by lia.
Qed.

Lemma for_each_alter (body : loc → M unit) (f : bandDict → bandDict) :
  (∀ h b t a s, body (length h) (MkWorld (h ++ b :: t) a s) =
                MkRun (inr tt) (MkWorld (h ++ f b :: t) a s) []) →
  ∀ l h t a s n, n = length h →
    for_each (seq n (length l)) body (MkWorld (h ++ l ++ t) a s) =
    MkRun (inr tt) (MkWorld (h ++ (f <$> l) ++ t) a s) [].
Proof.
  intros Hbody l. induction l as [|b l IH]; intros h t a s n ->; [done|].
  cbn [length seq for_each app fmap list_fmap].
  rewrite (bind_pure _ _ _ _ _ (Hbody _ _ _ _ _)).
  rewrite snoc_app, (IH (h ++ [f b])); [by rewrite <- snoc_app|].
  rewrite length_app. cbn. lia.
Qed.

Lemma for_each_alter_end (body : loc → M unit) (f : bandDict → bandDict) :
  (∀ h b t a s, body (length h) (MkWorld (h ++ b :: t) a s) =
                MkRun (inr tt) (MkWorld (h ++ f b :: t) a s) []) →
  ∀ l h a s n, n = length h →
    for_each (seq n (length l)) body (MkWorld (h ++ l) a s) =
    MkRun (inr tt) (MkWorld (h ++ (f <$> l)) a s) [].
Proof.
  intros Hbody l h a s n Hn.
  pose proof (for_each_alter body f Hbody l h [] a s n Hn) as E.
  by rewrite !app_nil_r in E.
Qed.

(** The body of the first loop annotates the dictionary it is given. *)
Lemma fill_body_run h b t a s :
  (b0 ← deref (length h);
   (if bool_decide (src b0 !! "DataType" = None)
    then mutate (length h) (set_src "DataType" (VInt UInt16))
    else ret tt);;
   b1 ← deref (length h);
   match dst b1 !! "wavelength" with
   | Some wavelength => mutate (length h) (set_dst "suffix" wavelength)
   | None => ret tt
   end) (MkWorld (h ++ b :: t) a s) =
  MkRun (inr tt) (MkWorld (h ++ annotate b :: t) a s) [].
Proof.
  assert (Hget : ∀ x, (h ++ x :: t) !!! length h = x)
    by (intros x; by apply list_lookup_total_middle).
  unfold annotate.
  rewrite (bind_pure _ _ _ b (MkWorld (h ++ b :: t) a s))
    by (unfold deref; cbn; by rewrite Hget).
  destruct (bool_decide (src b !! "DataType" = None)).
  - rewrite (bind_pure _ _ _ tt
      (MkWorld (h ++ set_src "DataType" (VInt UInt16) b :: t) a s))
      by (unfold mutate, with_heap; cbn; by rewrite alter_middle).
    set (b1 := set_src "DataType" (VInt UInt16) b).
    rewrite (bind_pure _ _ _ b1 (MkWorld (h ++ b1 :: t) a s))
      by (unfold deref; cbn; by rewrite Hget).
    destruct (dst b1 !! "wavelength"); [|done].
    unfold mutate, with_heap; cbn. by rewrite alter_middle.
  - rewrite (bind_pure _ _ _ tt (MkWorld (h ++ b :: t) a s)) by done.
    rewrite (bind_pure _ _ _ b (MkWorld (h ++ b :: t) a s))
      by (unfold deref; cbn; by rewrite Hget).
    destruct (dst b !! "wavelength"); [|done].
    unfold mutate, with_heap; cbn. by rewrite alter_middle.
Qed.

(** The second loop, when [scales] has an entry for every index it uses. *)
Lemma for_enumerate_scales (scales : list scalar) l :
  ∀ i h t a s n, n = length h → (i + length l ≤ length scales)%nat →
    for_enumerate i (seq n (length l)) (λ i bandDict,
      s ← index scales i;
      mutate bandDict (set_src "ScaleRatio" (VStr (py_str s))))
      (MkWorld (h ++ l ++ t) a s) =
    MkRun (inr tt) (MkWorld (h ++ with_scales scales i l ++ t) a s) [].
Proof.
  induction l as [|b l IH]; intros i h t a s n -> Hlen; [done|].
  cbn [length seq for_enumerate app with_scales] in *.
  destruct (lookup_lt_is_Some_2 scales i) as [x Hx]; [lia|].
  rewrite Hx.
  rewrite (bind_pure _ _ _ tt
    (MkWorld (h ++ set_src "ScaleRatio" (VStr (py_str x)) b :: l ++ t) a s)).
  - rewrite snoc_app, (IH (S i) (h ++ [_])); [by rewrite <- snoc_app| |lia].
    rewrite length_app. cbn. lia.
  - unfold index. rewrite Hx.
    rewrite (bind_pure _ _ _ x (MkWorld (h ++ b :: l ++ t) a s)) by done.
    unfold mutate, with_heap; cbn. by rewrite alter_middle.
Qed.

Lemma outcome_bind {A B} (m : M A) (k : A → M B) w :
  outcome (bind m k w) =
  match outcome (m w) with
  | inl e => inl e
  | inr x => outcome (k x (world (m w)))
  end.
Proof. unfold bind. by destruct (outcome (m w)). Qed.

(** The second loop, when [scales] is too short: [scales[i]] raises. *)
Lemma for_enumerate_short (scales : list scalar) (rs : list loc) :
  ∀ i w, (i ≤ length scales < i + length rs)%nat →
    outcome (for_enumerate i rs (λ i bandDict,
      s ← index scales i;
      mutate bandDict (set_src "ScaleRatio" (VStr (py_str s)))) w) =
    inl IndexError.
Proof.
  induction rs as [|r rs IH]; intros i w Hlen; cbn [length] in Hlen; [lia|].
  cbn [for_enumerate]. rewrite outcome_bind, outcome_bind. unfold index.
  destruct (scales !! i) as [x|] eqn:Hx; [|done].
  apply lookup_lt_Some in Hx. cbn. apply IH. lia.
Qed.

Lemma py_but_last_seq n k : py_but_last (seq n (S k)) = seq n k.
Proof.
  unfold py_but_last. rewrite length_seq.
  replace (S k - 1)%nat with k by lia.
  replace (S k) with (k + 1)%nat by lia.
  rewrite seq_app, take_app_length'; [done | by rewrite length_seq].
Qed.

Lemma append_ads_run vrts :
  ∀ md h a s,
    append_ads md vrts (MkWorld h a s) =
    MkRun (inr (md ++ seq (length h) (length vrts)))
          (MkWorld (h ++ (ads_bandDict <$> vrts)) a s) [].
Proof.
  induction vrts as [|v vrts IH]; intros md h a s.
  - cbn. by rewrite !app_nil_r.
  - cbn [append_ads].
    rewrite (bind_pure _ _ _ (length h)
      (MkWorld (h ++ [ads_bandDict v]) a s)) by done.
    rewrite IH, length_app, <- !app_assoc. cbn.
    by replace (length h + 1)%nat with (S (length h)) by lia.
Qed.

(** Looking up the references of a block of the store gives the block. *)
Lemma snapshot_block (h l t : list bandDict) n :
  n = length h →
  (λ r, (h ++ l ++ t) !!! r) <$> seq n (length l) = l.
Proof.
  intros ->. revert h. induction l as [|b l IH]; intros h; [done|].
  cbn [length seq fmap list_fmap app]. f_equal.
  - by apply list_lookup_total_middle.
  - rewrite snoc_app. rewrite <- (IH (h ++ [b])) at 2.
    rewrite length_app. cbn.
    by replace (length h + 1)%nat with (S (length h)) by lia.
Qed.

Lemma snapshot_two (h l1 l2 : list bandDict) n1 n2 m :
  n1 = length l1 → n2 = length l2 → m = length (h ++ l1) →
  (λ r, ((h ++ l1) ++ l2) !!! r) <$> (seq (length h) n1 ++ seq m n2) =
  l1 ++ l2.
Proof.
  intros -> -> ->. rewrite fmap_app. f_equal.
  - rewrite <- app_assoc. by apply snapshot_block.
  - pose proof (snapshot_block (h ++ l1) l2 [] _ eq_refl) as E.
    by rewrite app_nil_r in E.
Qed.

Lemma length_with_scales (scales : list scalar) l :
  ∀ i, length (with_scales scales i l) = length l.
Proof. induction l as [|b l IH]; intros i; cbn; [done | by rewrite IH]. Qed.

Lemma length_static_bands fileName scales :
  length (static_bands fileName scales) = 16%nat.
Proof.
  unfold static_bands. by rewrite length_app, length_with_scales.
Qed.

(** The first loop over the freshly built table. *)
Lemma fill_loop_run l h a s :
  for_each (seq (length h) (length l)) (λ bandDict,
    b ← deref bandDict;
    (if bool_decide (src b !! "DataType" = None)
     then mutate bandDict (set_src "DataType" (VInt UInt16))
     else ret tt);;
    b ← deref bandDict;
    match dst b !! "wavelength" with
    | Some wavelength => mutate bandDict (set_dst "suffix" wavelength)
    | None => ret tt
    end) (MkWorld (h ++ l) a s) =
  MkRun (inr tt) (MkWorld (h ++ (annotate <$> l)) a s) [].
Proof.
  apply (for_each_alter_end _ annotate); [|done].
  intros. apply fill_body_run.
Qed.

(** The second loop over the first 15 entries of the annotated table. *)
Lemma scale_loop_run fileName (scales : list scalar) h a s :
  (15 ≤ length scales)%nat →
  for_enumerate 0 (seq (length h) 15) (λ i bandDict,
    s ← index scales i;
    mutate bandDict (set_src "ScaleRatio" (VStr (py_str s))))
    (MkWorld (h ++ (annotate <$> metaDict_literal fileName)) a s) =
  MkRun (inr tt) (MkWorld (h ++ static_bands fileName scales) a s) [].
Proof.
  intros Hlen.
  set (L := annotate <$> metaDict_literal fileName).
  pose proof (for_enumerate_scales scales (take 15 L) 0 h (drop 15 L) a s
    (length h) eq_refl) as E.
  rewrite take_drop in E. apply E. cbn. lia.
Qed.

Lemma after_after {A} t1 t2 (r : Run A) :
  after t1 (after t2 r) = after (t1 ++ t2) r.
Proof. unfold after. cbn. by rewrite app_assoc. Qed.

Lemma outcome_after {A} t (r : Run A) : outcome (after t r) = outcome r.
Proof. done. Qed.

Lemma bind_call_world {T B} ev (meth : attrs → error exn + attrs * T)
    (k : T → M B) h a s :
  bind (call ev meth) k (MkWorld h a s) =
  match meth a with
  | inl e => MkRun (inl e) (MkWorld h a s) [ev (inl e)]
  | inr (a', x) => after [ev (inr x)] (k x (MkWorld h a' s))
  end.
Proof. unfold bind, call. cbn. by destruct (meth a) as [e|[a' x]]. Qed.

Lemma call_world {T} ev (meth : attrs → error exn + attrs * T) h a s :
  call ev meth (MkWorld h a s) =
  match meth a with
  | inl e => MkRun (inl e) (MkWorld h a s) [ev (inl e)]
  | inr (a', x) => MkRun (inr x) (MkWorld h a' s) [ev (inr x)]
  end.
Proof. unfold call. cbn. by destruct (meth a) as [e|[a' x]]. Qed.

Lemma run_if {A} (b : bool) (m1 m2 : M A) w :
  (if b then m1 else m2) w = if b then m1 w else m2 w.
Proof. by destruct b. Qed.

Lemma length_metaDict_literal fileName :
  length (metaDict_literal fileName) = 16%nat.
Proof. done. Qed.

Lemma recognized_prefix product :
  bool_decide (py_prefix 9 product ≠ "MER_FRS_1")
  && bool_decide (py_prefix 9 product ≠ "MER_RR__1") = false →
  py_prefix 9 product = "MER_FRS_1" ∨ py_prefix 9 product = "MER_RR__1".
Proof.
  intros Hrec. apply andb_false_iff in Hrec.
  destruct Hrec as [H|H]; apply bool_decide_eq_false in H;
    [left|right]; by apply dec_stable.
Qed.

(** A successful construction, step by step: what every base-class method
    returned, the store and the trace it leaves. *)
Lemma Mapper__init__success fileName ds md g z st w r :
  Mapper__init__ fileName ds md g z st w = r →
  outcome r = inr tt →
  ∃ product scales vrts a,
    (py_prefix 9 product = "MER_FRS_1" ∨ py_prefix 9 product = "MER_RR__1")
    ∧ (15 ≤ length scales)%nat
    ∧ r =
      MkRun (inr tt)
        (MkWorld (heap w ++ static_bands fileName scales
                  ++ (ads_bandDict <$> vrts)) a {[ "adsVRTs" := vrts ]})
        ([ EvEnvisatInit fileName md (inr product);
           EvReadScalingGads (py_range 7 22) (inr scales);
           EvGetAdsVrts ds adsNames z st (inr vrts);
           EvVRTInit ds (inr tt);
           EvCreateBands
             (static_bands fileName scales ++ (ads_bandDict <$> vrts))
             (inr tt);
           EvSetEnvisatTime md (inr tt) ]
         ++ if g then [EvAddGeolocation ds z st (inr tt)] else []).
Proof.
  destruct w as [h a0 s0]. unfold Mapper__init__. intros Hr Hok.
  rewrite bind_call_world in Hr.
  destruct (Envisat__init__ fileName md a0) as [e|[a1 product]];
    [by subst r|].
  rewrite run_if in Hr.
  destruct (bool_decide (py_prefix 9 product ≠ "MER_FRS_1")
            && bool_decide (py_prefix 9 product ≠ "MER_RR__1")) eqn:Hrec;
    [by subst r|].
  apply recognized_prefix in Hrec.
  rewrite (bind_pure _ _ _ _ _ (new_list_run _ _ _ _)) in Hr.
  rewrite (bind_pure _ _ _ _ _ (fill_loop_run _ _ _ _)) in Hr.
  rewrite bind_call_world in Hr.
  destruct (read_scaling_gads (py_range 7 22) a1) as [e|[a2 scales]];
    [by subst r|].
  rewrite length_metaDict_literal, py_but_last_seq in Hr.
  destruct (decide (15 ≤ length scales)%nat) as [Hlen|Hlen].
  2:{ subst r. rewrite !outcome_after, outcome_bind in Hok.
      rewrite for_enumerate_short in Hok; [done|].
      rewrite length_seq. lia. }
  rewrite (bind_pure _ _ _ _ _ (scale_loop_run _ _ _ _ _ Hlen)) in Hr.
  rewrite bind_call_world in Hr.
  destruct (get_ads_vrts ds adsNames z st a2) as [e|[a3 vrts]];
    [by subst r|].
  rewrite (bind_pure _ _ _ tt (MkWorld (h ++ static_bands fileName scales) a3
    {[ "adsVRTs" := vrts ]})) in Hr by done.
  rewrite (bind_pure _ _ _ vrts (MkWorld (h ++ static_bands fileName scales) a3
    {[ "adsVRTs" := vrts ]})) in Hr
    by (unfold self_subVRTs; cbn [subVRTs]; by rewrite lookup_singleton_eq).
  rewrite (bind_pure _ _ _ _ _ (append_ads_run _ _ _ _ _)) in Hr.
  rewrite bind_call_world in Hr.
  destruct (VRT__init__ ds a3) as [e|[a4 []]]; [by subst r|].
  rewrite (bind_pure _ _ _
    (static_bands fileName scales ++ (ads_bandDict <$> vrts))
    (MkWorld ((h ++ static_bands fileName scales) ++ (ads_bandDict <$> vrts))
       a4 {[ "adsVRTs" := vrts ]})) in Hr.
  2:{ unfold snapshot. cbn [heap]. do 2 f_equal.
      apply snapshot_two; [by rewrite length_static_bands
                          | by rewrite length_fmap | done]. }
  rewrite bind_call_world in Hr.
  destruct (_create_bands _ a4) as [e|[a5 []]]; [by subst r|].
  rewrite bind_call_world in Hr.
  destruct (_set_envisat_time md a5) as [e|[a6 []]]; [by subst r|].
  rewrite !after_after in Hr.
  destruct g.
  - rewrite call_world in Hr.
    destruct (add_geolocation_from_ads ds z st a6) as [e|[a7 []]];
      [by subst r|].
    exists product, scales, vrts, a7. subst r.
    split; [done|]. split; [done|]. unfold after. cbn [outcome world trace heap].
    by rewrite <- !app_assoc.
  - exists product, scales, vrts, a6. subst r.
    split; [done|]. split; [done|]. unfold after, ret. cbn [outcome world trace heap].
    by rewrite <- !app_assoc.
Qed.

Lemma trace_after {A} t (r : Run A) : trace (after t r) = t ++ trace r.
Proof. done. Qed.

(** ** Every path through the constructor *)

Lemma recognized_prefix_2 product :
  py_prefix 9 product = "MER_FRS_1" ∨ py_prefix 9 product = "MER_RR__1" →
  bool_decide (py_prefix 9 product ≠ "MER_FRS_1")
  && bool_decide (py_prefix 9 product ≠ "MER_RR__1") = false.
Proof.
  intros Hrec. apply andb_false_iff.
  destruct Hrec as [Hrec|Hrec]; [left|right];
    apply bool_decide_eq_false; by intros [].
Qed.

Lemma bind_fail {A B} (m : M A) (k : A → M B) w e w' t :
  m w = MkRun (inl e) w' t → bind m k w = MkRun (inl e) w' t.
Proof. intros E. unfold bind. by rewrite E. Qed.

Lemma with_scales_none (scales : list scalar) l :
  ∀ i, (length scales ≤ i)%nat → with_scales scales i l = l.
Proof.
  induction l as [|b l IH]; intros i Hi; [done|].
  cbn [with_scales]. rewrite lookup_ge_None_2 by done.
  f_equal. apply IH. lia.
Qed.

(** The second loop, when [scales] is too short: the dictionaries before
    the missing index have their [ScaleRatio], then [scales[i]] raises. *)
Lemma for_enumerate_scales_short (scales : list scalar) l :
  ∀ i h t a s n, n = length h →
    (i ≤ length scales < i + length l)%nat →
    for_enumerate i (seq n (length l)) (λ i bandDict,
      s ← index scales i;
      mutate bandDict (set_src "ScaleRatio" (VStr (py_str s))))
      (MkWorld (h ++ l ++ t) a s) =
    MkRun (inl IndexError) (MkWorld (h ++ with_scales scales i l ++ t) a s) [].
Proof.
  induction l as [|b l IH]; intros i h t a s n -> Hlen;
    cbn [length] in Hlen; [lia|].
  cbn [length seq for_enumerate app with_scales].
  destruct (scales !! i) as [x|] eqn:Hx.
  - pose proof (lookup_lt_Some _ _ _ Hx) as Hi.
    rewrite (bind_pure _ _ _ tt
      (MkWorld (h ++ set_src "ScaleRatio" (VStr (py_str x)) b :: l ++ t) a s)).
    + rewrite snoc_app, (IH (S i) (h ++ [_])); [by rewrite <- snoc_app| |lia].
      rewrite length_app. cbn. lia.
    + unfold index. rewrite Hx.
      rewrite (bind_pure _ _ _ x (MkWorld (h ++ b :: l ++ t) a s)) by done.
      unfold mutate, with_heap; cbn. by rewrite alter_middle.
  - apply lookup_ge_None_1 in Hx.
    rewrite with_scales_none by lia.
    apply bind_fail. apply bind_fail. unfold index.
    rewrite lookup_ge_None_2 by done. done.
Qed.

(** The second loop over the annotated table, when fewer than 15 scaling
    factors were read. *)
Lemma scale_loop_short fileName (scales : list scalar) h a s :
  (length scales < 15)%nat →
  for_enumerate 0 (seq (length h) 15) (λ i bandDict,
    s ← index scales i;
    mutate bandDict (set_src "ScaleRatio" (VStr (py_str s))))
    (MkWorld (h ++ (annotate <$> metaDict_literal fileName)) a s) =
  MkRun (inl IndexError) (MkWorld (h ++ static_bands fileName scales) a s) [].
Proof.
  intros Hlen.
  set (L := annotate <$> metaDict_literal fileName).
  pose proof (for_enumerate_scales_short scales (take 15 L) 0 h (drop 15 L) a s
    (length h) eq_refl) as E.
  rewrite take_drop in E. apply E. cbn. lia.
Qed.

(** The constructor, run from any world, takes one of the paths of
    [Mapper__init__paths]. *)
Lemma Mapper__init__run fileName ds md g z st w :
  Mapper__init__ fileName ds md g z st w =
  Mapper__init__paths fileName ds md g z st w.
Proof.
  destruct w as [h a0 s0]. unfold Mapper__init__, Mapper__init__paths.
  cbn [heap base subVRTs].
  rewrite bind_call_world.
  destruct (Envisat__init__ fileName md a0) as [e|[a1 product]]; [done|].
  rewrite run_if.
  destruct (bool_decide (py_prefix 9 product ≠ "MER_FRS_1")
            && bool_decide (py_prefix 9 product ≠ "MER_RR__1")); [done|].
  rewrite (bind_pure _ _ _ _ _ (new_list_run _ _ _ _)).
  rewrite (bind_pure _ _ _ _ _ (fill_loop_run _ _ _ _)).
  rewrite bind_call_world.
  destruct (read_scaling_gads (py_range 7 22) a1) as [e|[a2 scales]];
    [done|].
  rewrite length_metaDict_literal, py_but_last_seq.
  destruct (decide (15 ≤ length scales)%nat) as [Hlen|Hlen].
  2:{ rewrite (bind_fail _ _ _ _ _ _
        (scale_loop_short fileName scales h a2 s0 ltac:(lia))).
      done. }
  rewrite (bind_pure _ _ _ _ _ (scale_loop_run _ _ _ _ _ Hlen)).
  rewrite bind_call_world.
  destruct (get_ads_vrts ds adsNames z st a2) as [e|[a3 vrts]]; [done|].
  rewrite (bind_pure _ _ _ tt (MkWorld (h ++ static_bands fileName scales) a3
    {[ "adsVRTs" := vrts ]})) by done.
  rewrite (bind_pure _ _ _ vrts (MkWorld (h ++ static_bands fileName scales) a3
    {[ "adsVRTs" := vrts ]}))
    by (unfold self_subVRTs; cbn [subVRTs]; by rewrite lookup_singleton_eq).
  rewrite (bind_pure _ _ _ _ _ (append_ads_run _ _ _ _ _)).
  rewrite bind_call_world, <- app_assoc.
  destruct (VRT__init__ ds a3) as [e|[a4 []]]; [done|].
  rewrite (bind_pure _ _ _
    (static_bands fileName scales ++ (ads_bandDict <$> vrts))
    (MkWorld (h ++ static_bands fileName scales ++ (ads_bandDict <$> vrts))
       a4 {[ "adsVRTs" := vrts ]})).
  2:{ unfold snapshot. cbn [heap]. do 2 f_equal. rewrite app_assoc.
      apply snapshot_two; [by rewrite length_static_bands
                          | by rewrite length_fmap | done]. }
  rewrite bind_call_world.
  destruct (_create_bands _ a4) as [e|[a5 []]]; [done|].
  rewrite bind_call_world.
  destruct (_set_envisat_time md a5) as [e|[a6 []]]; [done|].
  rewrite !after_after.
  destruct g; [|done].
  rewrite call_world.
  by destruct (add_geolocation_from_ads ds z st a6) as [e|[a7 []]].
Qed.

(** Case analysis over the paths of a run. *)
Ltac all_paths :=
  rewrite ?Mapper__init__run; unfold Mapper__init__paths; cbv zeta;
  repeat match goal with
  | |- context [match ?x with inl _ => _ | inr _ => _ end] =>
      destruct x as [?|[? ?]] eqn:?
  | |- context [if ?b then _ else _] => destruct b eqn:?
  end.

(** ** The static table, entry by entry *)

Lemma scales_15 (scales : list scalar) :
  (15 ≤ length scales)%nat →
  ∃ s0 s1 s2 s3 s4 s5 s6 s7 s8 s9 s10 s11 s12 s13 s14 rest,
    scales = s0 :: s1 :: s2 :: s3 :: s4 :: s5 :: s6 :: s7 :: s8 :: s9
             :: s10 :: s11 :: s12 :: s13 :: s14 :: rest.
Proof.
  intros Hlen.
  do 15 (destruct scales as [|? scales]; [cbn in Hlen; lia|]).
  by repeat eexists.
Qed.

(** Entry [i < 15] of the finished table: the [i]-th radiance band, with
    the default data type, its wavelength as suffix and [scales[i]] as
    scale ratio. *)
Lemma static_bands_radiance fileName (scales : list scalar) i wl :
  (15 ≤ length scales)%nat →
  radiance_wavelengths !! i = Some wl →
  ∃ s, scales !! i = Some s ∧
    static_bands fileName scales !! i =
    Some (BandDict
      {[ "SourceFilename" := VStr fileName;
         "SourceBand" := VInt (Z.of_nat i + 1);
         "DataType" := VInt UInt16;
         "ScaleRatio" := VStr (py_str s) ]}
      {[ "wkv" := VStr "toa_outgoing_spectral_radiance";
         "wavelength" := VStr wl;
         "suffix" := VStr wl ]}).
Proof.
  intros Hlen Hwl.
  destruct (scales_15 scales Hlen)
    as (s0&s1&s2&s3&s4&s5&s6&s7&s8&s9&s10&s11&s12&s13&s14&rest&->).
  do 15 (destruct i as [|i];
    [ injection Hwl as <-; eexists; split; [reflexivity|];
      vm_compute; reflexivity |]).
  discriminate Hwl.
Qed.

(** Entry 15 of the finished table: the flags band as it was written. *)
Lemma static_bands_flags fileName (scales : list scalar) :
  static_bands fileName scales !! 15%nat =
  Some (BandDict
    {[ "SourceFilename" := VStr fileName; "SourceBand" := VInt 16;
       "DataType" := VInt 1 ]}
    {[ "wkv" := VStr "quality_flags"; "suffix" := VStr "l1" ]}).
Proof. vm_compute. reflexivity. Qed.

(** ** Recognition of the product *)

Lemma py_prefix_short n s :
  (String.length s ≤ n)%nat → py_prefix n s = s.
Proof.
  unfold py_prefix. revert n. induction s as [|c s IH]; intros n Hlen.
  - by destruct n.
  - destruct n as [|n]; cbn in *; [lia|]. f_equal. apply IH. lia.
Qed.

(** [s[0:n] == t] for a [t] of [n] characters says that [s] starts with
    [t]. *)
Lemma py_prefix_eq t :
  ∀ s, py_prefix (String.length t) s = t ↔ ∃ rest, s = t +:+ rest.
Proof.
  unfold py_prefix. induction t as [|c t IH]; intros s.
  - split; [by exists s|]. intros _. by destruct s.
  - destruct s as [|c' s]; cbn [String.length String.substring].
    + split; [done|]. by intros [rest Hrest].
    + split.
      * intros [= -> Ht]. apply IH in Ht as [rest ->]. by exists rest.
      * intros [rest [= -> ->]]. f_equal. apply IH. by exists rest.
Qed.

Lemma Mapper__init__reject fileName ds md g z st w a product :
  Envisat__init__ fileName md (base w) = inr (a, product) →
  py_prefix 9 product ≠ "MER_FRS_1" →
  py_prefix 9 product ≠ "MER_RR__1" →
  Mapper__init__ fileName ds md g z st w =
  MkRun (inl WrongMapperError) (MkWorld (heap w) a (subVRTs w))
        [EvEnvisatInit fileName md (inr product)].
Proof.
  intros HE H1 H2. destruct w as [h a0 s0]. cbn [base] in HE.
  unfold Mapper__init__. rewrite bind_call_world, HE, run_if.
  rewrite !bool_decide_eq_true_2 by done. done.
Qed.

(** C1, as the code has it.  The constructor ends in [WrongMapperError]
    with no call having raised, that is by its own [raise] of line 46,
    exactly when [Envisat.__init__] returned a product whose first 9
    characters are neither ["MER_FRS_1"] nor ["MER_RR__1"]; with one of the
    two prefixes its own check never raises.  There is no [try] around the
    calls: a run that ends in [WrongMapperError] in any other way ends in
    the [WrongMapperError] its last call raised.  The test on the first 9
    characters is a starts-with test. *)
Theorem wrong_mapper_iff fileName ds md g z st w :
  (outcome (Mapper__init__ fileName ds md g z st w) = inl WrongMapperError
   ∧ last (trace (Mapper__init__ fileName ds md g z st w)) ≫= event_exn
     = None
   ↔ ∃ a product,
       Envisat__init__ fileName md (base w) = inr (a, product)
       ∧ py_prefix 9 product ≠ "MER_FRS_1"
       ∧ py_prefix 9 product ≠ "MER_RR__1")
  ∧ (outcome (Mapper__init__ fileName ds md g z st w) = inl WrongMapperError
     ↔ (∃ a product,
          Envisat__init__ fileName md (base w) = inr (a, product)
          ∧ py_prefix 9 product ≠ "MER_FRS_1"
          ∧ py_prefix 9 product ≠ "MER_RR__1")
       ∨ last (trace (Mapper__init__ fileName ds md g z st w)) ≫= event_exn
         = Some WrongMapperError)
  ∧ (∀ product,
       py_prefix 9 product ≠ "MER_FRS_1" ∧ py_prefix 9 product ≠ "MER_RR__1"
       ↔ ¬ ∃ rest, product = "MER_FRS_1" +:+ rest
                   ∨ product = "MER_RR__1" +:+ rest).
Proof.
  assert (Hown :
    outcome (Mapper__init__ fileName ds md g z st w) = inl WrongMapperError
    ∧ last (trace (Mapper__init__ fileName ds md g z st w)) ≫= event_exn
      = None
    ↔ ∃ a product,
        Envisat__init__ fileName md (base w) = inr (a, product)
        ∧ py_prefix 9 product ≠ "MER_FRS_1"
        ∧ py_prefix 9 product ≠ "MER_RR__1").
  { split.
    - intros [Hout Hlast].
      destruct (Envisat__init__ fileName md (base w)) as [e|[a product]]
        eqn:HE.
      + exfalso. revert Hlast. rewrite Mapper__init__run.
        unfold Mapper__init__paths. by rewrite HE.
      + exists a, product. split; [done|].
        destruct (bool_decide (py_prefix 9 product ≠ "MER_FRS_1")
                  && bool_decide (py_prefix 9 product ≠ "MER_RR__1"))
          eqn:Hrec.
        * apply andb_true_iff in Hrec as [H1 H2].
          by apply bool_decide_eq_true in H1, H2.
        * exfalso. revert Hout Hlast. rewrite Mapper__init__run.
          unfold Mapper__init__paths. cbv zeta. rewrite HE, Hrec.
          all_paths; cbn; congruence.
    - intros (a & product & HE & H1 & H2).
      by rewrite (Mapper__init__reject _ _ _ _ _ _ _ _ _ HE H1 H2). }
  split; [exact Hown|]. split; [split|].
  - intros Hout.
    destruct (last (trace (Mapper__init__ fileName ds md g z st w))
              ≫= event_exn) as [e|] eqn:Hlast.
    + right. revert Hout Hlast. all_paths; cbn; congruence.
    + left. by apply Hown.
  - intros [Hrej|Hlast]; [by apply Hown|].
    revert Hlast. all_paths; cbn; congruence.
  - intros product.
    pose proof (py_prefix_eq "MER_FRS_1" product) as H1.
    pose proof (py_prefix_eq "MER_RR__1" product) as H2.
    cbn [String.length] in H1, H2. split.
    + intros [N1 N2] [rest [Hp|Hp]].
      * apply N1, H1. by exists rest.
      * apply N2, H2. by exists rest.
    + intros Hn. split; intros Hp; apply Hn.
      * apply H1 in Hp as [rest ->]. exists rest. by left.
      * apply H2 in Hp as [rest ->]. exists rest. by right.
Qed.

(** C8, as the code has it.  When the product is not recognized, the
    constructor stops right after [Envisat.__init__]: that is the only call
    it has made (no scale coefficient read, no auxiliary grid requested, the
    raster container neither initialized nor given bands), and the store of
    band dictionaries and [self.subVRTs] are as they were.  The state is not
    unchanged, though: the attributes of the base classes are those
    [Envisat.__init__] left, which has stored the product read on
    line 45. *)
Theorem reject_before_construction fileName ds md g z st w a product :
  Envisat__init__ fileName md (base w) = inr (a, product) →
  py_prefix 9 product ≠ "MER_FRS_1" →
  py_prefix 9 product ≠ "MER_RR__1" →
  let r := Mapper__init__ fileName ds md g z st w in
  outcome r = inl WrongMapperError
  ∧ trace r = [EvEnvisatInit fileName md (inr product)]
  ∧ scaling_reads (trace r) = []
  ∧ ads_requests (trace r) = []
  ∧ created_bands (trace r) = []
  ∧ heap (world r) = heap w
  ∧ subVRTs (world r) = subVRTs w
  ∧ base (world r) = a.
Proof.
  intros HE H1 H2 r. subst r.
  by rewrite (Mapper__init__reject _ _ _ _ _ _ _ _ _ HE H1 H2).
Qed.

(** C9. A product shorter than 9 characters is its own 9-character prefix
    (slicing truncates, it does not raise), equals neither literal, and
    makes the constructor raise [WrongMapperError]. *)
Theorem short_product_rejected fileName ds md g z st w a product :
  Envisat__init__ fileName md (base w) = inr (a, product) →
  (String.length product < 9)%nat →
  py_prefix 9 product = product
  ∧ product ≠ "MER_FRS_1" ∧ product ≠ "MER_RR__1"
  ∧ outcome (Mapper__init__ fileName ds md g z st w) = inl WrongMapperError.
Proof.
  intros HE Hlen.
  assert (Hp : py_prefix 9 product = product) by (apply py_prefix_short; lia).
  assert (H1 : product ≠ "MER_FRS_1") by (intros ->; cbn in Hlen; lia).
  assert (H2 : product ≠ "MER_RR__1") by (intros ->; cbn in Hlen; lia).
  repeat split; [done..|].
  rewrite (Mapper__init__reject _ _ _ _ _ _ _ a product HE); [done|..];
    by rewrite Hp.
Qed.

(** ** The bands of a successful construction *)

(** What a successful construction read, requested and registered. *)
Lemma success_bands fileName ds md g z st w :
  outcome (Mapper__init__ fileName ds md g z st w) = inr tt →
  ∃ scales vrts,
    (15 ≤ length scales)%nat
    ∧ scaling_reads (trace (Mapper__init__ fileName ds md g z st w)) =
      [(py_range 7 22, inr scales)]
    ∧ ads_requests (trace (Mapper__init__ fileName ds md g z st w)) =
      [inr vrts]
    ∧ created_bands (trace (Mapper__init__ fileName ds md g z st w)) =
      [static_bands fileName scales ++ (ads_bandDict <$> vrts)]
    ∧ geolocations (trace (Mapper__init__ fileName ds md g z st w)) =
      (if g then [(ds, z, st, inr tt)] else [])
    ∧ heap (world (Mapper__init__ fileName ds md g z st w)) =
      heap w ++ static_bands fileName scales ++ (ads_bandDict <$> vrts)
    ∧ subVRTs (world (Mapper__init__ fileName ds md g z st w)) =
      {[ "adsVRTs" := vrts ]}.
Proof.
  intros Hok.
  destruct (Mapper__init__success fileName ds md g z st w _ eq_refl Hok)
    as (product & scales & vrts & a & _ & Hlen & ->).
  exists scales, vrts. by destruct g.
Qed.

Lemma static_bands_lookup_app fileName (scales : list scalar) aux i :
  (i < 16)%nat →
  (static_bands fileName scales ++ aux) !! i =
  static_bands fileName scales !! i.
Proof.
  intros Hi. apply lookup_app_l. by rewrite length_static_bands.
Qed.

Lemma radiance_wavelengths_lt i wl :
  radiance_wavelengths !! i = Some wl → (i < 15)%nat.
Proof. intros H. by apply lookup_lt_Some in H. Qed.

(** C3. The list given to [_create_bands] starts with exactly 16 static
    entries, followed by one entry per auxiliary VRT: entries 0-14 are
    [toa_outgoing_spectral_radiance] bands of [fileName] with wavelengths
    413 ... 900 in table order and source bands 1 ... 15; entry 15 is the
    [quality_flags] band, source band 16, suffix ["l1"], no wavelength. *)
Theorem static_table_shape fileName ds md g z st w :
  outcome (Mapper__init__ fileName ds md g z st w) = inr tt →
  ∃ static vrts,
    created_bands (trace (Mapper__init__ fileName ds md g z st w)) =
      [static ++ (ads_bandDict <$> vrts)]
    ∧ ads_requests (trace (Mapper__init__ fileName ds md g z st w)) =
      [inr vrts]
    ∧ length static = 16%nat
    ∧ (∀ i wl, radiance_wavelengths !! i = Some wl →
        ∃ b, static !! i = Some b
          ∧ dst b !! "wkv" = Some (VStr "toa_outgoing_spectral_radiance")
          ∧ dst b !! "wavelength" = Some (VStr wl)
          ∧ src b !! "SourceBand" = Some (VInt (Z.of_nat i + 1))
          ∧ src b !! "SourceFilename" = Some (VStr fileName))
    ∧ (∃ b, static !! 15%nat = Some b
          ∧ dst b !! "wkv" = Some (VStr "quality_flags")
          ∧ src b !! "SourceBand" = Some (VInt 16)
          ∧ src b !! "SourceFilename" = Some (VStr fileName)
          ∧ dst b !! "suffix" = Some (VStr "l1")
          ∧ dst b !! "wavelength" = None).
Proof.
  intros Hok.
  destruct (success_bands _ _ _ _ _ _ _ Hok)
    as (scales & vrts & Hlen & _ & Hads & Hbands & _).
  exists (static_bands fileName scales), vrts.
  split; [done|]. split; [done|]. split; [apply length_static_bands|]. split.
  - intros i wl Hwl.
    destruct (static_bands_radiance fileName scales i wl Hlen Hwl)
      as (s & _ & ->).
    eexists. split; [done|]. by vm_compute.
  - rewrite static_bands_flags. eexists. split; [done|]. by vm_compute.
Qed.

(** C2, as the code has it.  Entry 15 (quality flags) of the list given to
    [_create_bands] has no [ScaleRatio] and keeps the data type written in
    the table, [1]; the default-fill loop leaves it alone.  That type is not
    the default [UInt16] code [2]. *)
Theorem flags_band_keeps_its_type fileName ds md g z st w :
  outcome (Mapper__init__ fileName ds md g z st w) = inr tt →
  ∃ bands b,
    created_bands (trace (Mapper__init__ fileName ds md g z st w)) = [bands]
    ∧ bands !! 15%nat = Some b
    ∧ src b !! "ScaleRatio" = None
    ∧ src b !! "DataType" = Some (VInt 1)
    ∧ VInt 1 ≠ VInt UInt16.
Proof.
  intros Hok.
  destruct (success_bands _ _ _ _ _ _ _ Hok)
    as (scales & vrts & Hlen & _ & _ & Hbands & _).
  eexists _, _. split; [done|].
  rewrite static_bands_lookup_app, static_bands_flags by lia.
  split; [done|]. by vm_compute.
Qed.

(** C5. One call reads the scaling factors, for the 15 slots 7 ... 21; for
    every [i < 15] the [i]-th value read, as a string, is the [ScaleRatio]
    of entry [i] of the list given to [_create_bands]; entry 15 (quality
    flags) gets none. *)
Theorem scale_ratios_in_order fileName ds md g z st w :
  outcome (Mapper__init__ fileName ds md g z st w) = inr tt →
  ∃ scales bands,
    scaling_reads (trace (Mapper__init__ fileName ds md g z st w)) =
      [(py_range 7 22, inr scales)]
    ∧ py_range 7 22 = [7; 8; 9; 10; 11; 12; 13; 14; 15; 16; 17; 18; 19; 20; 21]
    ∧ created_bands (trace (Mapper__init__ fileName ds md g z st w)) = [bands]
    ∧ (∀ i, (i < 15)%nat →
        ∃ s b, scales !! i = Some s ∧ bands !! i = Some b
          ∧ src b !! "ScaleRatio" = Some (VStr (py_str s)))
    ∧ (∃ b, bands !! 15%nat = Some b ∧ src b !! "ScaleRatio" = None).
Proof.
  intros Hok.
  destruct (success_bands _ _ _ _ _ _ _ Hok)
    as (scales & vrts & Hlen & Hread & _ & Hbands & _).
  eexists scales, _. split; [done|]. split; [done|]. split; [done|]. split.
  - intros i Hi.
    destruct (lookup_lt_is_Some_2 radiance_wavelengths i) as [wl Hwl];
      [done|].
    destruct (static_bands_radiance fileName scales i wl Hlen Hwl)
      as (s & Hs & Hb).
    exists s. eexists. split; [done|].
    rewrite static_bands_lookup_app, Hb by lia. split; [done|].
    by vm_compute.
  - rewrite static_bands_lookup_app, static_bands_flags by lia.
    eexists. split; [done|]. by vm_compute.
Qed.

(** What one pass of the first loop does to the suffix of any dictionary. *)
Lemma annotate_suffix b :
  dst (annotate b) !! "suffix" =
  match dst b !! "wavelength" with
  | Some wavelength => Some wavelength
  | None => dst b !! "suffix"
  end.
Proof.
  unfold annotate.
  destruct (bool_decide (src b !! "DataType" = None)); cbn [set_src dst];
    destruct (dst b !! "wavelength"); cbn [set_dst dst];
    by rewrite ?lookup_insert_eq.
Qed.

(** C6. For every entry of the static table as written, the entry of the
    list given to [_create_bands] at the same place has the wavelength as
    suffix when the table gives one, and the suffix of the table
    otherwise. *)
Theorem suffix_mirrors_wavelength fileName ds md g z st w :
  outcome (Mapper__init__ fileName ds md g z st w) = inr tt →
  ∃ bands,
    created_bands (trace (Mapper__init__ fileName ds md g z st w)) = [bands]
    ∧ ∀ i b0, metaDict_literal fileName !! i = Some b0 →
        ∃ b, bands !! i = Some b
          ∧ match dst b0 !! "wavelength" with
            | Some wavelength => dst b !! "suffix" = Some wavelength
            | None => dst b !! "suffix" = dst b0 !! "suffix"
            end.
Proof.
  intros Hok.
  destruct (success_bands _ _ _ _ _ _ _ Hok)
    as (scales & vrts & Hlen & _ & _ & Hbands & _).
  eexists. split; [done|]. intros i b0 Hb0.
  assert (Hi : (i < 16)%nat) by by apply lookup_lt_Some in Hb0.
  rewrite static_bands_lookup_app by done.
  destruct (decide (i = 15%nat)) as [->|Hne].
  - rewrite static_bands_flags. injection Hb0 as <-.
    eexists. split; [done|]. by vm_compute.
  - destruct (lookup_lt_is_Some_2 radiance_wavelengths i) as [wl Hwl];
      [cbn; lia|].
    destruct (static_bands_radiance fileName scales i wl Hlen Hwl)
      as (s & _ & ->).
    eexists. split; [done|].
    do 15 (destruct i as [|i];
      [injection Hb0 as <-; injection Hwl as <-; by vm_compute|]).
    cbn in Hi. lia.
Qed.

Lemma ads_bands_lookup fileName (scales : list scalar) (vrts : list VRT) j :
  (static_bands fileName scales ++ (ads_bandDict <$> vrts)) !! (16 + j)%nat =
  ads_bandDict <$> vrts !! j.
Proof.
  rewrite lookup_app_r by (rewrite length_static_bands; lia).
  rewrite length_static_bands, list_lookup_fmap. do 2 f_equal. lia.
Qed.

(** C4, as the code has it.  Every entry of the static table written
    without a [DataType] carries the default [UInt16] code in the list
    given to [_create_bands], and an entry written with one keeps it; the
    entries appended for the auxiliary VRTs, built after the default-fill
    loop has run, carry no [DataType]. *)
Theorem default_fill_static_only fileName ds md g z st w :
  outcome (Mapper__init__ fileName ds md g z st w) = inr tt →
  ∃ bands vrts,
    created_bands (trace (Mapper__init__ fileName ds md g z st w)) = [bands]
    ∧ ads_requests (trace (Mapper__init__ fileName ds md g z st w)) =
      [inr vrts]
    ∧ (∀ i b0, metaDict_literal fileName !! i = Some b0 →
        ∃ b, bands !! i = Some b
          ∧ match src b0 !! "DataType" with
            | Some t => src b !! "DataType" = Some t
            | None => src b !! "DataType" = Some (VInt UInt16)
            end)
    ∧ (∀ j v, vrts !! j = Some v →
        ∃ b, bands !! (16 + j)%nat = Some b ∧ src b !! "DataType" = None).
Proof.
  intros Hok.
  destruct (success_bands _ _ _ _ _ _ _ Hok)
    as (scales & vrts & Hlen & _ & Hads & Hbands & _).
  eexists _, vrts. split; [done|]. split; [done|]. split.
  - intros i b0 Hb0.
    assert (Hi : (i < 16)%nat) by by apply lookup_lt_Some in Hb0.
    rewrite static_bands_lookup_app by done.
    destruct (decide (i = 15%nat)) as [->|Hne].
    + rewrite static_bands_flags. injection Hb0 as <-.
      eexists. split; [done|]. by vm_compute.
    + destruct (lookup_lt_is_Some_2 radiance_wavelengths i) as [wl Hwl];
        [cbn; lia|].
      destruct (static_bands_radiance fileName scales i wl Hlen Hwl)
        as (s & _ & ->).
      eexists. split; [done|].
      do 15 (destruct i as [|i]; [injection Hb0 as <-; by vm_compute|]).
      cbn in Hi. lia.
  - intros j v Hv. rewrite ads_bands_lookup, Hv. eexists. split; [done|].
    by vm_compute.
Qed.

(** C10. The list given to [_create_bands] has one entry per auxiliary VRT
    after the 16 static ones; each has neither [ScaleRatio] nor [DataType],
    and its source is band 1 of the file of its VRT. *)
Theorem ads_bands_unannotated fname ds md g z st w :
  outcome (Mapper__init__ fname ds md g z st w) = inr tt →
  ∃ bands vrts,
    created_bands (trace (Mapper__init__ fname ds md g z st w)) = [bands]
    ∧ ads_requests (trace (Mapper__init__ fname ds md g z st w)) =
      [inr vrts]
    ∧ length bands = (16 + length vrts)%nat
    ∧ (∀ j v, vrts !! j = Some v →
        ∃ b, bands !! (16 + j)%nat = Some b
          ∧ src b !! "ScaleRatio" = None
          ∧ src b !! "DataType" = None
          ∧ src b !! "SourceBand" = Some (VInt 1)
          ∧ src b !! "SourceFilename" = Some (VStr (fileName v))).
Proof.
  intros Hok.
  destruct (success_bands _ _ _ _ _ _ _ Hok)
    as (scales & vrts & Hlen & _ & Hads & Hbands & _).
  eexists _, vrts. split; [done|]. split; [done|]. split.
  - by rewrite length_app, length_static_bands, length_fmap.
  - intros j v Hv. rewrite ads_bands_lookup, Hv. eexists. split; [done|].
    by vm_compute.
Qed.

(** C7. Without [geolocation] the constructor never calls
    [add_geolocation_from_ads], whatever else happens; with it, a
    successful construction has called it exactly once, with the dataset and
    the [zoomSize] and [step] it was given. *)
Theorem geolocation_on_request fileName ds md g z st w :
  (g = false →
   geolocations (trace (Mapper__init__ fileName ds md g z st w)) = [])
  ∧ (g = true →
     outcome (Mapper__init__ fileName ds md g z st w) = inr tt →
     geolocations (trace (Mapper__init__ fileName ds md g z st w)) =
     [(ds, z, st, inr tt)]).
Proof.
  split.
  - intros ->. all_paths; reflexivity.
  - intros -> Hok.
    by destruct (success_bands _ _ _ _ _ _ _ Hok)
      as (scales & vrts & _ & _ & _ & _ & -> & _).
Qed.

(** ** What holds on every path *)

(** X1. No exception of a base class is swallowed or made up.  The only
    call of a run that can have raised is the last one made; when it
    raised, the constructor ends with that very exception; when no call
    raised, the constructor returns or ends with one of the two exceptions
    its own code raises, [WrongMapperError] (line 46) or [IndexError]
    ([scales[i]], line 109). *)
Theorem base_exception_propagates fileName ds md g z st w :
  omap event_exn (trace (Mapper__init__ fileName ds md g z st w)) =
    option_list (last (trace (Mapper__init__ fileName ds md g z st w))
                 ≫= event_exn)
  ∧ match last (trace (Mapper__init__ fileName ds md g z st w))
          ≫= event_exn with
    | Some e => outcome (Mapper__init__ fileName ds md g z st w) = inl e
    | None =>
        outcome (Mapper__init__ fileName ds md g z st w) = inr tt
        ∨ outcome (Mapper__init__ fileName ds md g z st w) =
          inl WrongMapperError
        ∨ outcome (Mapper__init__ fileName ds md g z st w) = inl IndexError
    end.
Proof. all_paths; split; cbn; auto. Qed.

(** X2. The base-class methods are called in source order, each at most once:
    the methods of the calls of any run form a prefix of the seven. *)
Theorem calls_in_source_order fileName ds md g z st w :
  (event_method <$> trace (Mapper__init__ fileName ds md g z st w))
  `prefix_of`
  [ MEnvisatInit; MReadScalingGads; MGetAdsVrts; MVRTInit; MCreateBands;
    MSetEnvisatTime; MAddGeolocation ].
Proof. all_paths; eexists; reflexivity. Qed.

(** X3. Construction succeeds exactly when every method was called (the
    geolocation one when asked for) and none raised. *)
Theorem success_iff_all_calls_return fileName ds md g z st w :
  outcome (Mapper__init__ fileName ds md g z st w) = inr tt
  ↔ event_method <$> trace (Mapper__init__ fileName ds md g z st w) =
      [ MEnvisatInit; MReadScalingGads; MGetAdsVrts; MVRTInit; MCreateBands;
        MSetEnvisatTime ] ++ (if g then [MAddGeolocation] else [])
    ∧ omap event_exn (trace (Mapper__init__ fileName ds md g z st w)) = [].
Proof. all_paths; split; (discriminate || by intros [??] || done). Qed.

(** X4. [self.subVRTs['adsVRTs']] reads the key stored on the line before,
    so the constructor's own lookup never raises: a run ends in [KeyError]
    only when its last call raised [KeyError]. *)
Theorem never_KeyError fileName ds md g z st w :
  outcome (Mapper__init__ fileName ds md g z st w) = inl KeyError →
  last (trace (Mapper__init__ fileName ds md g z st w)) ≫= event_exn
  = Some KeyError.
Proof. all_paths; cbn; congruence. Qed.

(** X5. Every call carries the arguments of the constructor: file name and
    metadata to [Envisat.__init__], the slots 7 ... 21 to
    [read_scaling_gads], the dataset, the four names, [zoomSize] and [step]
    to [get_ads_vrts], the dataset to [VRT.__init__], at least the 16 static
    bands to [_create_bands], the metadata to [_set_envisat_time], and
    dataset, [zoomSize] and [step] to [add_geolocation_from_ads]. *)
Theorem calls_carry_arguments fileName ds md g z st w :
  Forall (passes_arguments fileName ds md z st)
         (trace (Mapper__init__ fileName ds md g z st w)).
Proof.
  all_paths; repeat apply Forall_cons_2; try apply Forall_nil_2;
    cbn [passes_arguments]; try done;
    rewrite length_app, length_static_bands; lia.
Qed.

(** X6. [self.subVRTs] is assigned once, when [get_ads_vrts] has returned, and
    then holds exactly its result under the one key ['adsVRTs']; on every
    path that ends before, it is what it was. *)
Theorem subVRTs_assignment fileName ds md g z st w :
  match ads_requests (trace (Mapper__init__ fileName ds md g z st w)) with
  | [inr vrts] =>
      subVRTs (world (Mapper__init__ fileName ds md g z st w)) =
      {[ "adsVRTs" := vrts ]}
  | _ =>
      subVRTs (world (Mapper__init__ fileName ds md g z st w)) = subVRTs w
  end.
Proof. all_paths; reflexivity. Qed.

(** X7. The constructor only writes to dictionaries it allocated itself: what
    a reference of the initial store points to is the same after any run. *)
Theorem store_frame fileName ds md g z st w r b :
  heap w !! r = Some b →
  heap (world (Mapper__init__ fileName ds md g z st w)) !! r = Some b.
Proof.
  intros Hr.
  assert (Hp : heap w `prefix_of`
               heap (world (Mapper__init__ fileName ds md g z st w))).
  { all_paths; cbn [world heap]; (reflexivity || by apply prefix_app_r). }
  destruct Hp as [k ->]. by apply lookup_app_l_Some.
Qed.

(** X8. Asking for geolocation only adds one last call: up to it the two runs
    make the same calls and leave the same store and [self.subVRTs], and
    when the run without it fails the run with it fails the same way. *)
Theorem geolocation_only_adds_last_call fileName ds md z st w :
  trace (Mapper__init__ fileName ds md false z st w)
    `prefix_of` trace (Mapper__init__ fileName ds md true z st w)
  ∧ heap (world (Mapper__init__ fileName ds md true z st w)) =
    heap (world (Mapper__init__ fileName ds md false z st w))
  ∧ subVRTs (world (Mapper__init__ fileName ds md true z st w)) =
    subVRTs (world (Mapper__init__ fileName ds md false z st w))
  ∧ created_bands (trace (Mapper__init__ fileName ds md true z st w)) =
    created_bands (trace (Mapper__init__ fileName ds md false z st w))
  ∧ (outcome (Mapper__init__ fileName ds md false z st w) ≠ inr tt →
     Mapper__init__ fileName ds md true z st w =
     Mapper__init__ fileName ds md false z st w).
Proof.
  all_paths; (split; [by eexists|]); repeat split; done.
Qed.


(** X10. [scales[i]] raises [IndexError], that is the constructor ends in
    [IndexError] with no call having raised, exactly when the product was
    recognized and [read_scaling_gads] returned fewer than 15 values. *)
Theorem index_error_iff fileName ds md g z st w :
  outcome (Mapper__init__ fileName ds md g z st w) = inl IndexError
  ∧ last (trace (Mapper__init__ fileName ds md g z st w)) ≫= event_exn = None
  ↔ ∃ a1 product a2 scales,
      Envisat__init__ fileName md (base w) = inr (a1, product)
      ∧ (py_prefix 9 product = "MER_FRS_1"
         ∨ py_prefix 9 product = "MER_RR__1")
      ∧ read_scaling_gads (py_range 7 22) a1 = inr (a2, scales)
      ∧ (length scales < 15)%nat.
Proof.
  split.
  - intros [Hout Hlast]. revert Hout Hlast.
    rewrite Mapper__init__run. unfold Mapper__init__paths. cbv zeta.
    destruct (Envisat__init__ fileName md (base w)) as [e|[a1 product]]
      eqn:HE; [cbn; congruence|].
    destruct (bool_decide (py_prefix 9 product ≠ "MER_FRS_1")
              && bool_decide (py_prefix 9 product ≠ "MER_RR__1")) eqn:Hrec;
      [cbn; congruence|].
    apply recognized_prefix in Hrec.
    destruct (read_scaling_gads (py_range 7 22) a1) as [e|[a2 scales]]
      eqn:Hread; [cbn; congruence|].
    destruct (decide (15 ≤ length scales)%nat) as [Hlen|Hlen].
    + intros Hout Hlast. exfalso. revert Hout Hlast.
      all_paths; cbn; congruence.
    + intros _ _. exists a1, product, a2, scales. do 3 (split; [done|]). lia.
  - intros (a1 & product & a2 & scales & HE & Hrec & Hread & Hlen).
    rewrite Mapper__init__run. unfold Mapper__init__paths. cbv zeta.
    rewrite HE, Hread.
    rewrite (recognized_prefix_2 _ Hrec).
    by rewrite decide_False by lia.
Qed.

(** X11. With fewer than 15 scaling factors the constructor stops in the second
    loop: no auxiliary grid has been requested, the raster container has
    not been initialized, no band has been registered and [self.subVRTs] is
    untouched. *)
Theorem short_scales_stop_early fileName ds md g z st w a1 product a2 scales :
  Envisat__init__ fileName md (base w) = inr (a1, product) →
  py_prefix 9 product = "MER_FRS_1" ∨ py_prefix 9 product = "MER_RR__1" →
  read_scaling_gads (py_range 7 22) a1 = inr (a2, scales) →
  (length scales < 15)%nat →
  outcome (Mapper__init__ fileName ds md g z st w) = inl IndexError
  ∧ trace (Mapper__init__ fileName ds md g z st w) =
    [ EvEnvisatInit fileName md (inr product);
      EvReadScalingGads (py_range 7 22) (inr scales) ]
  ∧ ads_requests (trace (Mapper__init__ fileName ds md g z st w)) = []
  ∧ created_bands (trace (Mapper__init__ fileName ds md g z st w)) = []
  ∧ subVRTs (world (Mapper__init__ fileName ds md g z st w)) = subVRTs w
  ∧ base (world (Mapper__init__ fileName ds md g z st w)) = a2.
Proof.
  intros HE Hrec Hread Hlen.
  rewrite Mapper__init__run. unfold Mapper__init__paths. cbv zeta.
  rewrite HE, Hread.
  rewrite (recognized_prefix_2 _ Hrec).
  by rewrite decide_False by lia.
Qed.

(** ** The default-fill loop on any table *)

Lemma annotate_DataType b :
  src (annotate b) !! "DataType" =
  Some (default (VInt UInt16) (src b !! "DataType")).
Proof.
  unfold annotate, set_src, set_dst. case_bool_decide as Ht; cbn [src dst].
  - rewrite Ht. destruct (dst b !! "wavelength"); cbn [src];
      by rewrite lookup_insert_eq.
  - destruct (dst b !! "wavelength"); cbn [src];
      by destruct (src b !! "DataType").
Qed.

Lemma annotate_src_other b k :
  k ≠ "DataType" → src (annotate b) !! k = src b !! k.
Proof.
  intros Hk. unfold annotate, set_src, set_dst.
  case_bool_decide; cbn [src dst]; destruct (dst b !! "wavelength");
    cbn [src]; by rewrite ?lookup_insert_ne.
Qed.

Lemma annotate_dst_other b k :
  k ≠ "suffix" → dst (annotate b) !! k = dst b !! k.
Proof.
  intros Hk. unfold annotate, set_src, set_dst.
  case_bool_decide; cbn [src dst]; destruct (dst b !! "wavelength");
    cbn [dst]; by rewrite ?lookup_insert_ne.
Qed.

Lemma annotate_idemp b : annotate (annotate b) = annotate b.
Proof.
  assert (Hsrc : src (annotate (annotate b)) = src (annotate b)).
  { apply map_eq. intros k. destruct (decide (k = "DataType")) as [->|Hk].
    - by rewrite !annotate_DataType.
    - by rewrite annotate_src_other. }
  assert (Hdst : dst (annotate (annotate b)) = dst (annotate b)).
  { apply map_eq. intros k. destruct (decide (k = "suffix")) as [->|Hk].
    - rewrite !annotate_suffix, annotate_dst_other by done.
      by destruct (dst b !! "wavelength").
    - by rewrite annotate_dst_other. }
  destruct (annotate (annotate b)), (annotate b). cbn in *. congruence.
Qed.

Lemma default_fill_run l h a s :
  default_fill (seq (length h) (length l)) (MkWorld (h ++ l) a s) =
  MkRun (inr tt) (MkWorld (h ++ (annotate <$> l)) a s) [].
Proof. apply fill_loop_run. Qed.

(** X12. The default-fill loop, run over any table [l] just allocated after the
    store [h], returns without a call, leaves [h] alone and changes in each
    dictionary at most [src['DataType']], filled with the [UInt16] code when
    absent, and [dst['suffix']], set to the wavelength when there is
    one. *)
Theorem default_fill_frame l h a s :
  ∃ l',
    default_fill (seq (length h) (length l)) (MkWorld (h ++ l) a s) =
    MkRun (inr tt) (MkWorld (h ++ l') a s) []
    ∧ length l' = length l
    ∧ ∀ i b, l !! i = Some b →
        ∃ b', l' !! i = Some b'
          ∧ src b' !! "DataType" =
            Some (default (VInt UInt16) (src b !! "DataType"))
          ∧ (∀ k, k ≠ "DataType" → src b' !! k = src b !! k)
          ∧ dst b' !! "suffix" =
            match dst b !! "wavelength" with
            | Some wavelength => Some wavelength
            | None => dst b !! "suffix"
            end
          ∧ (∀ k, k ≠ "suffix" → dst b' !! k = dst b !! k).
Proof.
  exists (annotate <$> l). split; [apply default_fill_run|].
  split; [by rewrite length_fmap|]. intros i b Hb.
  exists (annotate b). split; [by rewrite list_lookup_fmap, Hb|].
  split; [apply annotate_DataType|].
  split; [intros k; apply annotate_src_other|].
  split; [apply annotate_suffix|]. intros k; apply annotate_dst_other.
Qed.

(** X13. Running the default-fill loop a second time changes nothing. *)
Theorem default_fill_idempotent l h a s :
  (default_fill (seq (length h) (length l));;
   default_fill (seq (length h) (length l))) (MkWorld (h ++ l) a s) =
  default_fill (seq (length h) (length l)) (MkWorld (h ++ l) a s).
Proof.
  rewrite (bind_pure _ _ _ _ _ (default_fill_run _ _ _ _)).
  rewrite default_fill_run.
  rewrite <- (length_fmap annotate l) at 1.
  rewrite default_fill_run. do 3 f_equal.
  rewrite <- list_fmap_compose. apply list_fmap_ext.
  intros i b _. apply annotate_idemp.
Qed.

(** ** The scaling factors that matter *)

Lemma with_scales_take (scales : list scalar) n l :
  ∀ i, (i + length l ≤ n)%nat →
    with_scales (take n scales) i l = with_scales scales i l.
Proof.
  induction l as [|b l IH]; intros i Hi; [done|]. cbn [length] in Hi.
  cbn [with_scales]. rewrite lookup_take_lt by lia.
  f_equal. apply IH. lia.
Qed.

Lemma static_bands_take fileName (scales : list scalar) :
  static_bands fileName (take 15 scales) = static_bands fileName scales.
Proof.
  unfold static_bands. f_equal. apply with_scales_take.
  unfold py_but_last. rewrite length_take, length_fmap. cbn. lia.
Qed.

(** X14. Only the first 15 scaling factors read reach the bands: two successful
    constructions for the same file that read tables agreeing on their
    first 15 entries, and got the same auxiliary VRTs, register the same
    bands. *)
Theorem only_first_15_scales_matter fileName ds md g z st w w'
    scales scales' vrts :
  outcome (Mapper__init__ fileName ds md g z st w) = inr tt →
  outcome (Mapper__init__ fileName ds md g z st w') = inr tt →
  scaling_reads (trace (Mapper__init__ fileName ds md g z st w)) =
    [(py_range 7 22, inr scales)] →
  scaling_reads (trace (Mapper__init__ fileName ds md g z st w')) =
    [(py_range 7 22, inr scales')] →
  ads_requests (trace (Mapper__init__ fileName ds md g z st w)) =
    [inr vrts] →
  ads_requests (trace (Mapper__init__ fileName ds md g z st w')) =
    [inr vrts] →
  take 15 scales = take 15 scales' →
  created_bands (trace (Mapper__init__ fileName ds md g z st w)) =
  created_bands (trace (Mapper__init__ fileName ds md g z st w')).
Proof.
  intros Hok Hok' Hs Hs' Hv Hv' Heq.
  destruct (success_bands _ _ _ _ _ _ _ Hok)
    as (sc & vs & _ & Hread & Hads & -> & _).
  destruct (success_bands _ _ _ _ _ _ _ Hok')
    as (sc' & vs' & _ & Hread' & Hads' & -> & _).
  rewrite Hread in Hs. rewrite Hread' in Hs'.
  rewrite Hads in Hv. rewrite Hads' in Hv'.
  assert (sc = scales) as -> by congruence.
  assert (sc' = scales') as -> by congruence.
  assert (vs = vrts) as -> by congruence.
  assert (vs' = vrts) as -> by congruence.
  by rewrite <- (static_bands_take _ scales), Heq, static_bands_take.
Qed.

(** ** The auxiliary bands *)

(** X15. The destination of the band appended for an auxiliary VRT has exactly
    the keys ['name'] and ['units'], each holding what [GetMetadataItem]
    returned for band 1 of the VRT: the item, or [None] when the band has
    none. *)
Theorem ads_metadata_pass_through fname ds md g z st w :
  outcome (Mapper__init__ fname ds md g z st w) = inr tt →
  ∃ bands vrts,
    created_bands (trace (Mapper__init__ fname ds md g z st w)) = [bands]
    ∧ ads_requests (trace (Mapper__init__ fname ds md g z st w)) =
      [inr vrts]
    ∧ ∀ j v, vrts !! j = Some v →
        ∃ b, bands !! (16 + j)%nat = Some b
          ∧ dst b !! "name" =
            Some (match RasterBand1 v !! "name" with
                  | Some s => VStr s
                  | None => VNone
                  end)
          ∧ dst b !! "units" =
            Some (match RasterBand1 v !! "units" with
                  | Some s => VStr s
                  | None => VNone
                  end)
          ∧ ∀ k, k ≠ "name" → k ≠ "units" → dst b !! k = None.
Proof.
  intros Hok.
  destruct (success_bands _ _ _ _ _ _ _ Hok)
    as (scales & vrts & Hlen & _ & Hads & Hbands & _).
  eexists _, vrts. split; [done|]. split; [done|].
  intros j v Hv. rewrite ads_bands_lookup, Hv. eexists. split; [done|].
  unfold ads_bandDict, GetMetadataItem. cbn [dst].
  split; [by rewrite lookup_insert_eq|].
  split; [by rewrite lookup_insert_ne, lookup_singleton_eq|].
  intros k Hn Hu. by rewrite lookup_insert_ne, lookup_singleton_ne.
Qed.

(** ** Products that are recognized *)

(** X16. The slice comparison is a starts-with test: once [Envisat.__init__]
    has returned, the constructor gets past the recognition check, that is
    does not end in [WrongMapperError] with no call having raised, exactly
    for the products that continue ["MER_FRS_1"] or ["MER_RR__1"]. *)
Theorem recognized_iff_starts_with fileName ds md g z st w a product :
  Envisat__init__ fileName md (base w) = inr (a, product) →
  ¬ (outcome (Mapper__init__ fileName ds md g z st w) = inl WrongMapperError
     ∧ last (trace (Mapper__init__ fileName ds md g z st w)) ≫= event_exn
       = None)
  ↔ ∃ rest, product = "MER_FRS_1" +:+ rest ∨ product = "MER_RR__1" +:+ rest.
Proof.
  intros HE.
  pose proof (py_prefix_eq "MER_FRS_1" product) as H1.
  pose proof (py_prefix_eq "MER_RR__1" product) as H2.
  cbn [String.length] in H1, H2.
  destruct (bool_decide (py_prefix 9 product ≠ "MER_FRS_1")
            && bool_decide (py_prefix 9 product ≠ "MER_RR__1")) eqn:Hrec.
  - apply andb_true_iff in Hrec as [N1 N2].
    apply bool_decide_eq_true in N1, N2.
    rewrite (Mapper__init__reject _ _ _ _ _ _ _ _ _ HE N1 N2).
    cbn [outcome trace]. split.
    + intros Hn. exfalso. by apply Hn.
    + intros [rest [Hp|Hp]]; exfalso.
      * apply N1, H1. by exists rest.
      * apply N2, H2. by exists rest.
  - split.
    + intros _. destruct (recognized_prefix _ Hrec) as [Hp|Hp].
      * apply H1 in Hp as [rest ->]. exists rest. by left.
      * apply H2 in Hp as [rest ->]. exists rest. by right.
    + intros _ [Hout Hlast]. revert Hout Hlast.
      rewrite Mapper__init__run. unfold Mapper__init__paths. cbv zeta.
      rewrite HE, Hrec. all_paths; cbn; congruence.
Qed.

(** ** What success takes *)

(** X17. Construction succeeds exactly when the product is recognized, at least
    15 scaling factors are read and every method returns, each one run on
    the attributes the one before it left: [VRT.__init__] after
    [get_ads_vrts], [_create_bands] on the container [VRT.__init__] made,
    given the 16 static bands followed by the auxiliary ones, then
    [_set_envisat_time] and, when asked for, [add_geolocation_from_ads]. *)
Theorem success_iff_methods_return fileName ds md g z st w :
  outcome (Mapper__init__ fileName ds md g z st w) = inr tt
  ↔ ∃ product scales vrts a1 a2 a3 a4 a5 a6,
      Envisat__init__ fileName md (base w) = inr (a1, product)
      ∧ (py_prefix 9 product = "MER_FRS_1"
         ∨ py_prefix 9 product = "MER_RR__1")
      ∧ read_scaling_gads (py_range 7 22) a1 = inr (a2, scales)
      ∧ (15 ≤ length scales)%nat
      ∧ get_ads_vrts ds adsNames z st a2 = inr (a3, vrts)
      ∧ VRT__init__ ds a3 = inr (a4, tt)
      ∧ _create_bands
          (static_bands fileName scales ++ (ads_bandDict <$> vrts)) a4 =
        inr (a5, tt)
      ∧ _set_envisat_time md a5 = inr (a6, tt)
      ∧ (g = true → ∃ a7, add_geolocation_from_ads ds z st a6 = inr (a7, tt)).
Proof.
  rewrite Mapper__init__run. unfold Mapper__init__paths. cbv zeta. split.
  - destruct (Envisat__init__ fileName md (base w)) as [e|[a1 product]]
      eqn:HE; [done|].
    destruct (bool_decide (py_prefix 9 product ≠ "MER_FRS_1")
              && bool_decide (py_prefix 9 product ≠ "MER_RR__1")) eqn:Hrec;
      [done|].
    apply recognized_prefix in Hrec.
    destruct (read_scaling_gads (py_range 7 22) a1) as [e|[a2 scales]]
      eqn:Hread; [done|].
    destruct (decide (15 ≤ length scales)%nat) as [Hlen|Hlen]; [|done].
    destruct (get_ads_vrts ds adsNames z st a2) as [e|[a3 vrts]] eqn:Hads;
      [done|].
    destruct (VRT__init__ ds a3) as [e|[a4 []]] eqn:Hvrt; [done|].
    destruct (_create_bands _ a4) as [e|[a5 []]] eqn:Hcreate; [done|].
    destruct (_set_envisat_time md a5) as [e|[a6 []]] eqn:Htime; [done|].
    intros Hok. exists product, scales, vrts, a1, a2, a3, a4, a5, a6.
    do 8 (split; [done|]). intros ->.
    destruct (add_geolocation_from_ads ds z st a6) as [e|[a7 []]]; [done|].
    by exists a7.
  - intros (product & scales & vrts & a1 & a2 & a3 & a4 & a5 & a6 & HE & Hrec
            & Hread & Hlen & Hads & Hvrt & Hcreate & Htime & Hgeo).
    rewrite HE, Hread, Hads, Hvrt, Hcreate, Htime.
    rewrite (recognized_prefix_2 _ Hrec).
    rewrite decide_True by done.
    destruct g; [|done]. destruct (Hgeo eq_refl) as [a7 ->]. done.
Qed.


(** ** What the loops leave of the table *)

Lemma metaDict_literal_radiance fileName i wl :
  radiance_wavelengths !! i = Some wl →
  metaDict_literal fileName !! i =
  Some (radiance fileName (Z.of_nat i + 1) wl).
Proof.
  intros Hwl.
  do 15 (destruct i as [|i]; [by injection Hwl as <-|]).
  discriminate Hwl.
Qed.

Ltac solve_insert_subseteq :=
  rewrite <- ?insert_empty; repeat apply insert_mono;
  apply map_empty_subseteq.

(** X18. The two loops only add keys: every value written in the static table
    is still there, under the same key, in the list given to
    [_create_bands]. *)
Theorem table_values_kept fileName ds md g z st w :
  outcome (Mapper__init__ fileName ds md g z st w) = inr tt →
  ∃ bands,
    created_bands (trace (Mapper__init__ fileName ds md g z st w)) = [bands]
    ∧ ∀ i b0, metaDict_literal fileName !! i = Some b0 →
        ∃ b, bands !! i = Some b ∧ src b0 ⊆ src b ∧ dst b0 ⊆ dst b.
Proof.
  intros Hok.
  destruct (success_bands _ _ _ _ _ _ _ Hok)
    as (scales & vrts & Hlen & _ & _ & Hbands & _).
  eexists. split; [done|]. intros i b0 Hb0.
  assert (Hi : (i < 16)%nat) by by apply lookup_lt_Some in Hb0.
  rewrite static_bands_lookup_app by done.
  destruct (decide (i = 15%nat)) as [->|Hne].
  - rewrite static_bands_flags. injection Hb0 as <-.
    eexists. split; [done|]. by split.
  - destruct (lookup_lt_is_Some_2 radiance_wavelengths i) as [wl Hwl];
      [cbn; lia|].
    destruct (static_bands_radiance fileName scales i wl Hlen Hwl)
      as (s & _ & ->).
    rewrite (metaDict_literal_radiance _ _ _ Hwl) in Hb0.
    injection Hb0 as <-. eexists. split; [done|].
    unfold radiance. cbn [src dst]. split; solve_insert_subseteq.
Qed.

(** X19. The suffixes of the 16 static bands are all there and pairwise
    different, so that bands with the same [wkv] get different names. *)
Theorem static_suffixes_distinct fileName ds md g z st w :
  outcome (Mapper__init__ fileName ds md g z st w) = inr tt →
  ∃ bands,
    created_bands (trace (Mapper__init__ fileName ds md g z st w)) = [bands]
    ∧ ∀ i j, (i < 16)%nat → (j < 16)%nat → i ≠ j →
        ∃ bi bj si sj,
          bands !! i = Some bi ∧ bands !! j = Some bj
          ∧ dst bi !! "suffix" = Some si ∧ dst bj !! "suffix" = Some sj
          ∧ si ≠ sj.
Proof.
  intros Hok.
  destruct (success_bands _ _ _ _ _ _ _ Hok)
    as (scales & vrts & Hlen & _ & _ & Hbands & _).
  eexists. split; [done|]. intros i j Hi Hj Hij.
  rewrite !static_bands_lookup_app by done.
  assert (Hsuf : (λ b, dst b !! "suffix") <$> static_bands fileName scales =
                 Some <$> (VStr <$> radiance_wavelengths ++ ["l1"])).
  { destruct (scales_15 scales Hlen)
      as (s0&s1&s2&s3&s4&s5&s6&s7&s8&s9&s10&s11&s12&s13&s14&rest&->).
    vm_compute. reflexivity. }
  assert (Hnd : NoDup (VStr <$> radiance_wavelengths ++ ["l1"])).
  { apply (bool_decide_unpack _). vm_compute. exact I. }
  destruct (lookup_lt_is_Some_2 (static_bands fileName scales) i)
    as [bi Hbi]; [by rewrite length_static_bands|].
  destruct (lookup_lt_is_Some_2 (static_bands fileName scales) j)
    as [bj Hbj]; [by rewrite length_static_bands|].
  assert (Hsi := f_equal (λ l, l !! i) Hsuf).
  assert (Hsj := f_equal (λ l, l !! j) Hsuf).
  cbn beta in Hsi, Hsj.
  rewrite list_lookup_fmap, Hbi in Hsi. rewrite list_lookup_fmap, Hbj in Hsj.
  rewrite list_lookup_fmap in Hsi, Hsj. cbn [fmap option_fmap option_map] in Hsi, Hsj.
  destruct ((VStr <$> radiance_wavelengths ++ ["l1"]) !! i) as [si|] eqn:Ei;
    [|done].
  destruct ((VStr <$> radiance_wavelengths ++ ["l1"]) !! j) as [sj|] eqn:Ej;
    [|done].
  cbn in Hsi, Hsj. injection Hsi as Hsi. injection Hsj as Hsj.
  exists bi, bj, si, sj. do 4 (split; [done|]).
  intros ->. apply Hij. by eapply NoDup_lookup.
Qed.

End Mapper.

(** * A concrete product

    Base classes for a synthetic file: the product is the [MPH_PRODUCT]
    item of the metadata, the scaling factors of slots 7 ... 21 are
    1.0 ... 15.0, and every requested ADS gives a VRT whose band 1 has a
    name but no units. *)

Definition demo : BaseClasses := {|
  dataset := unit;
  scalar := Z;
  exn := string;
  attrs := option string;
  py_str := λ x, pretty x +:+ ".0";
  Envisat__init__ := λ _ md _,
    match md !! "MPH_PRODUCT" with
    | Some p => inr (Some p, p)
    | None => inl KeyError
    end;
  read_scaling_gads := λ indeces a, inr (a, (λ i, i - 6) <$> indeces);
  get_ads_vrts := λ _ names _ _ a,
    inr (a, (λ n, MkVRT ("/vsimem/" +:+ n) {[ "name" := n ]}) <$> names);
  VRT__init__ := λ _ a, inr (a, tt);
  _create_bands := λ _ a, inr (a, tt);
  _set_envisat_time := λ _ a, inr (a, tt);
  add_geolocation_from_ads := λ _ _ _ a, inr (a, tt)
|}.

Definition demo_world : World (BC := demo) :=
  MkWorld (BC := demo) [] (None : option string) ∅.

(** [Mapper("MER.N1", ds, {"MPH_PRODUCT": product}, geolocation)]. *)
Definition demo_run (product : string) (geolocation : bool)
    : Run (BC := demo) unit :=
  Mapper__init__ (BC := demo) "MER.N1" tt {[ "MPH_PRODUCT" := product ]}
    geolocation 500 1 demo_world.

(** The synthetic product of the test scenario is accepted, and a product
    of another sensor is not. *)
Example demo_accepts :
  outcome (demo_run "MER_FRS_1_TEST" true) = inr tt.
Proof. by vm_compute. Qed.

Example demo_rejects :
  outcome (demo_run "ASA_WSM_1P" true) = inl WrongMapperError.
Proof. by vm_compute. Qed.

(** Band 3 of the test scenario: wavelength 490, suffix 490, scale 3.0. *)
Example demo_band_3 :
  ∃ bands b,
    created_bands (trace (demo_run "MER_FRS_1_TEST" false)) = [bands]
    ∧ bands !! 2%nat = Some b
    ∧ dst b !! "wavelength" = Some (VStr "490")
    ∧ dst b !! "suffix" = Some (VStr "490")
    ∧ src b !! "ScaleRatio" = Some (VStr "3.0").
Proof.
  destruct (success_bands (BC := demo) "MER.N1" tt
              {[ "MPH_PRODUCT" := "MER_FRS_1_TEST" ]} false 500 1 demo_world)
    as (scales & vrts & Hlen & Hread & _ & Hbands & _); [by vm_compute|].
  vm_compute in Hread. injection Hread as <-.
  eexists _, _. split; [exact Hbands|].
  rewrite static_bands_lookup_app by lia.
  destruct (static_bands_radiance (BC := demo) "MER.N1"
              [1; 2; 3; 4; 5; 6; 7; 8; 9; 10; 11; 12; 13; 14; 15] 2 "490"
              Hlen eq_refl) as (s & Hs & ->).
  injection Hs as <-. split; [reflexivity|].
  vm_compute. repeat split; reflexivity.
Qed.

Lemma wrong_mapper_iff_witness :
  outcome (demo_run "MER_RR" false) = inl WrongMapperError
  ∧ last (trace (demo_run "MER_RR" false)) ≫= event_exn = None.
Proof.
  apply (proj1 (wrong_mapper_iff (BC := demo) "MER.N1" tt
                  {[ "MPH_PRODUCT" := "MER_RR" ]} false 500 1 demo_world)).
  exists (Some "MER_RR"), "MER_RR". by vm_compute.
Defined.

Lemma reject_before_construction_witness :
  outcome (demo_run "MER_FRS_2" true) = inl WrongMapperError
  ∧ trace (demo_run "MER_FRS_2" true) =
    [EvEnvisatInit "MER.N1" {[ "MPH_PRODUCT" := "MER_FRS_2" ]}
       (inr "MER_FRS_2")]
  ∧ scaling_reads (trace (demo_run "MER_FRS_2" true)) = []
  ∧ ads_requests (trace (demo_run "MER_FRS_2" true)) = []
  ∧ created_bands (trace (demo_run "MER_FRS_2" true)) = []
  ∧ heap (world (demo_run "MER_FRS_2" true)) = []
  ∧ subVRTs (world (demo_run "MER_FRS_2" true)) = ∅
  ∧ base (world (demo_run "MER_FRS_2" true)) = Some "MER_FRS_2".
Proof.
  apply (reject_before_construction (BC := demo) "MER.N1" tt
           {[ "MPH_PRODUCT" := "MER_FRS_2" ]} true 500 1 demo_world
           (Some "MER_FRS_2") "MER_FRS_2"); by vm_compute.
Defined.

Lemma short_product_rejected_witness :
  py_prefix 9 "MER_RR" = "MER_RR"
  ∧ "MER_RR" ≠ "MER_FRS_1" ∧ "MER_RR" ≠ "MER_RR__1"
  ∧ outcome (demo_run "MER_RR" false) = inl WrongMapperError.
Proof.
  apply (short_product_rejected (BC := demo) "MER.N1" tt
           {[ "MPH_PRODUCT" := "MER_RR" ]} false 500 1 demo_world
           (Some "MER_RR") "MER_RR"); [by vm_compute | cbn; lia].
Defined.

Lemma static_table_shape_witness :
  outcome (demo_run "MER_FRS_1_TEST" true) = inr tt
  ∧ ∃ static vrts,
      created_bands (trace (demo_run "MER_FRS_1_TEST" true)) =
        [static ++ (ads_bandDict <$> vrts)]
      ∧ ads_requests (trace (demo_run "MER_FRS_1_TEST" true)) = [inr vrts]
      ∧ length static = 16%nat
      ∧ (∀ i wl, radiance_wavelengths !! i = Some wl →
          ∃ b, static !! i = Some b
            ∧ dst b !! "wkv" = Some (VStr "toa_outgoing_spectral_radiance")
            ∧ dst b !! "wavelength" = Some (VStr wl)
            ∧ src b !! "SourceBand" = Some (VInt (Z.of_nat i + 1))
            ∧ src b !! "SourceFilename" = Some (VStr "MER.N1"))
      ∧ (∃ b, static !! 15%nat = Some b
            ∧ dst b !! "wkv" = Some (VStr "quality_flags")
            ∧ src b !! "SourceBand" = Some (VInt 16)
            ∧ src b !! "SourceFilename" = Some (VStr "MER.N1")
            ∧ dst b !! "suffix" = Some (VStr "l1")
            ∧ dst b !! "wavelength" = None).
Proof.
  split; [by vm_compute|]. unfold demo_run.
  apply (static_table_shape (BC := demo)). by vm_compute.
Defined.

Lemma flags_band_keeps_its_type_witness :
  outcome (demo_run "MER_RR__1PNPDK" false) = inr tt
  ∧ ∃ bands b,
      created_bands (trace (demo_run "MER_RR__1PNPDK" false)) = [bands]
      ∧ bands !! 15%nat = Some b
      ∧ src b !! "ScaleRatio" = None
      ∧ src b !! "DataType" = Some (VInt 1)
      ∧ VInt 1 ≠ VInt UInt16.
Proof.
  split; [by vm_compute|]. unfold demo_run.
  apply (flags_band_keeps_its_type (BC := demo)). by vm_compute.
Defined.

Lemma scale_ratios_in_order_witness :
  outcome (demo_run "MER_FRS_1_TEST" false) = inr tt
  ∧ ∃ scales bands,
      scaling_reads (trace (demo_run "MER_FRS_1_TEST" false)) =
        [(py_range 7 22, inr scales)]
      ∧ py_range 7 22 =
        [7; 8; 9; 10; 11; 12; 13; 14; 15; 16; 17; 18; 19; 20; 21]
      ∧ created_bands (trace (demo_run "MER_FRS_1_TEST" false)) = [bands]
      ∧ (∀ i, (i < 15)%nat →
          ∃ s b, scales !! i = Some s ∧ bands !! i = Some b
            ∧ src b !! "ScaleRatio" = Some (VStr (py_str (BaseClasses := demo) s)))
      ∧ (∃ b, bands !! 15%nat = Some b ∧ src b !! "ScaleRatio" = None).
Proof.
  split; [by vm_compute|]. unfold demo_run.
  apply (scale_ratios_in_order (BC := demo)). by vm_compute.
Defined.

Lemma suffix_mirrors_wavelength_witness :
  outcome (demo_run "MER_FRS_1_TEST" false) = inr tt
  ∧ ∃ bands,
      created_bands (trace (demo_run "MER_FRS_1_TEST" false)) = [bands]
      ∧ ∀ i b0, metaDict_literal "MER.N1" !! i = Some b0 →
          ∃ b, bands !! i = Some b
            ∧ match dst b0 !! "wavelength" with
              | Some wavelength => dst b !! "suffix" = Some wavelength
              | None => dst b !! "suffix" = dst b0 !! "suffix"
              end.
Proof.
  split; [by vm_compute|]. unfold demo_run.
  apply (suffix_mirrors_wavelength (BC := demo)). by vm_compute.
Defined.

Lemma default_fill_static_only_witness :
  outcome (demo_run "MER_FRS_1_TEST" false) = inr tt
  ∧ ∃ bands vrts,
      created_bands (trace (demo_run "MER_FRS_1_TEST" false)) = [bands]
      ∧ ads_requests (trace (demo_run "MER_FRS_1_TEST" false)) = [inr vrts]
      ∧ (∀ i b0, metaDict_literal "MER.N1" !! i = Some b0 →
          ∃ b, bands !! i = Some b
            ∧ match src b0 !! "DataType" with
              | Some t => src b !! "DataType" = Some t
              | None => src b !! "DataType" = Some (VInt UInt16)
              end)
      ∧ (∀ j v, vrts !! j = Some v →
          ∃ b, bands !! (16 + j)%nat = Some b ∧ src b !! "DataType" = None).
Proof.
  split; [by vm_compute|]. unfold demo_run.
  apply (default_fill_static_only (BC := demo)). by vm_compute.
Defined.

Lemma ads_bands_unannotated_witness :
  outcome (demo_run "MER_FRS_1_TEST" false) = inr tt
  ∧ ∃ bands vrts,
      created_bands (trace (demo_run "MER_FRS_1_TEST" false)) = [bands]
      ∧ ads_requests (trace (demo_run "MER_FRS_1_TEST" false)) = [inr vrts]
      ∧ length bands = (16 + length vrts)%nat
      ∧ (∀ j v, vrts !! j = Some v →
          ∃ b, bands !! (16 + j)%nat = Some b
            ∧ src b !! "ScaleRatio" = None
            ∧ src b !! "DataType" = None
            ∧ src b !! "SourceBand" = Some (VInt 1)
            ∧ src b !! "SourceFilename" = Some (VStr (fileName v))).
Proof.
  split; [by vm_compute|]. unfold demo_run.
  apply (ads_bands_unannotated (BC := demo)). by vm_compute.
Defined.

Lemma geolocation_on_request_witness :
  geolocations (trace (demo_run "MER_FRS_1_TEST" false)) = []
  ∧ outcome (demo_run "MER_FRS_1_TEST" true) = inr tt
  ∧ geolocations (trace (demo_run "MER_FRS_1_TEST" true)) =
    [(tt, 500, 1, inr tt)].
Proof.
  unfold demo_run. split; [|split].
  - by apply (geolocation_on_request (BC := demo)).
  - by vm_compute.
  - apply (geolocation_on_request (BC := demo)); [done | by vm_compute].
Defined.

(** C2 as stated fails: in the synthetic product the flags band carries
    data type [1], not the [UInt16] code [2]. *)
Lemma flags_band_not_UInt16 :
  ¬ (outcome (demo_run "MER_FRS_1_TEST" false) = inr tt →
     ∃ bands b,
       created_bands (trace (demo_run "MER_FRS_1_TEST" false)) = [bands]
       ∧ bands !! 15%nat = Some b
       ∧ src b !! "ScaleRatio" = None
       ∧ src b !! "DataType" = Some (VInt UInt16)).
Proof.
  intros H. destruct H as (bands & b & Hbands & Hb & _ & Ht);
    [by vm_compute|].
  destruct (success_bands (BC := demo) "MER.N1" tt
              {[ "MPH_PRODUCT" := "MER_FRS_1_TEST" ]} false 500 1 demo_world)
    as (scales & vrts & _ & _ & _ & Hcreated & _); [by vm_compute|].
  unfold demo_run in Hbands. rewrite Hcreated in Hbands.
  assert (bands = static_bands (BC := demo) "MER.N1" scales
                    ++ (ads_bandDict <$> vrts)) as -> by congruence.
  rewrite static_bands_lookup_app, static_bands_flags in Hb by lia.
  assert (b = BandDict
    {[ "SourceFilename" := VStr "MER.N1"; "SourceBand" := VInt 16;
       "DataType" := VInt 1 ]}
    {[ "wkv" := VStr "quality_flags"; "suffix" := VStr "l1" ]}) as ->
    by congruence.
  vm_compute in Ht. discriminate Ht.
Qed.

(** C4 as stated fails: in the synthetic product the first band appended
    for an auxiliary VRT is built without a [DataType] and is given to
    [_create_bands] without one. *)
Lemma ads_band_not_default_filled :
  ¬ (outcome (demo_run "MER_FRS_1_TEST" false) = inr tt →
     ∃ bands vrts,
       created_bands (trace (demo_run "MER_FRS_1_TEST" false)) = [bands]
       ∧ ads_requests (trace (demo_run "MER_FRS_1_TEST" false)) = [inr vrts]
       ∧ ∀ i b0 b,
           (metaDict_literal "MER.N1" ++ (ads_bandDict <$> vrts)) !! i
             = Some b0 →
           bands !! i = Some b →
           src b0 !! "DataType" = None →
           src b !! "DataType" = Some (VInt UInt16)).
Proof.
  intros H. destruct H as (bands & vrts & Hbands & Hvrts & Hall);
    [by vm_compute|].
  destruct (success_bands (BC := demo) "MER.N1" tt
              {[ "MPH_PRODUCT" := "MER_FRS_1_TEST" ]} false 500 1 demo_world)
    as (scales & vrts' & _ & _ & Hads & Hcreated & _); [by vm_compute|].
  unfold demo_run in Hbands, Hvrts.
  rewrite Hcreated in Hbands. clear Hcreated.
  assert (bands = static_bands (BC := demo) "MER.N1" scales
                    ++ (ads_bandDict <$> vrts')) as -> by congruence.
  clear Hbands.
  assert (Hv : ads_requests (trace (demo_run "MER_FRS_1_TEST" false)) =
               [inr ((λ n, MkVRT ("/vsimem/" +:+ n) {[ "name" := n ]})
                       <$> adsNames)])
    by (vm_compute; reflexivity).
  unfold demo_run in Hv. rewrite Hv in Hads, Hvrts. clear Hv.
  assert (vrts' = vrts) as -> by congruence.
  assert (vrts = (λ n, MkVRT ("/vsimem/" +:+ n) {[ "name" := n ]})
                   <$> adsNames) as -> by congruence.
  clear Hads Hvrts.
  set (v := MkVRT "/vsimem/sun zenith angles"
              {[ "name" := "sun zenith angles" ]}).
  assert (Ht : src (ads_bandDict v) !! "DataType" = Some (VInt UInt16)).
  { apply (Hall 16%nat (ads_bandDict v) (ads_bandDict v)).
    - reflexivity.
    - by rewrite (ads_bands_lookup (BC := demo) _ _ _ 0).
    - vm_compute. reflexivity. }
  vm_compute in Ht. discriminate Ht.
Qed.

(** * An [Envisat] that rejects files itself

    Base classes as those of the synthetic file, except that
    [Envisat.__init__] raises [WrongMapperError] itself for metadata
    without an [MPH_PRODUCT] item. *)

Definition strict_envisat : BaseClasses := {|
  dataset := unit;
  scalar := Z;
  exn := string;
  attrs := option string;
  py_str := λ x, pretty x +:+ ".0";
  Envisat__init__ := λ _ md _,
    match md !! "MPH_PRODUCT" with
    | Some p => inr (Some p, p)
    | None => inl WrongMapperError
    end;
  read_scaling_gads := λ indeces a, inr (a, (λ i, i - 6) <$> indeces);
  get_ads_vrts := λ _ names _ _ a,
    inr (a, (λ n, MkVRT ("/vsimem/" +:+ n) {[ "name" := n ]}) <$> names);
  VRT__init__ := λ _ a, inr (a, tt);
  _create_bands := λ _ a, inr (a, tt);
  _set_envisat_time := λ _ a, inr (a, tt);
  add_geolocation_from_ads := λ _ _ _ a, inr (a, tt)
|}.

(** C1 as stated fails: with these base classes and metadata without a
    product, construction ends in [WrongMapperError] although no product
    was read, let alone one with a wrong prefix. *)
Lemma wrong_mapper_without_product :
  ¬ (outcome (Mapper__init__ (BC := strict_envisat) "MER.N1" tt ∅ false 500 1
                (MkWorld (BC := strict_envisat) [] (None : option string) ∅))
     = inl WrongMapperError
     ↔ ∃ a product,
         Envisat__init__ (BaseClasses := strict_envisat) "MER.N1" ∅
           (None : option string) = inr (a, product)
         ∧ py_prefix 9 product ≠ "MER_FRS_1"
         ∧ py_prefix 9 product ≠ "MER_RR__1").
Proof.
  intros [H _]. destruct H as (a & product & HE & _); [reflexivity|].
  discriminate HE.
Qed.

(** C8 as stated fails: the rejected synthetic product leaves the state
    changed, [Envisat.__init__] having stored the product it read. *)
Lemma rejection_changes_attributes :
  ¬ (outcome (demo_run "MER_FRS_2" true) = inl WrongMapperError
     ∧ scaling_reads (trace (demo_run "MER_FRS_2" true)) = []
     ∧ ads_requests (trace (demo_run "MER_FRS_2" true)) = []
     ∧ created_bands (trace (demo_run "MER_FRS_2" true)) = []
     ∧ world (demo_run "MER_FRS_2" true) = demo_world).
Proof.
  intros (_ & _ & _ & _ & H). vm_compute in H. congruence.
Qed.

(** * A header that stores its scaling factors

    Base classes for a second synthetic file, whose attributes are the
    scaling factors found in its header: [read_scaling_gads] returns them
    all, however many there are. *)

Definition stored_gads : BaseClasses := {|
  dataset := unit;
  scalar := Z;
  exn := string;
  attrs := list Z;
  py_str := λ x, pretty x +:+ ".0";
  Envisat__init__ := λ _ md a,
    match md !! "MPH_PRODUCT" with
    | Some p => inr (a, p)
    | None => inl KeyError
    end;
  read_scaling_gads := λ _ a, inr (a, a);
  get_ads_vrts := λ _ names _ _ a,
    inr (a, (λ n, MkVRT ("/vsimem/" +:+ n) {[ "name" := n ]}) <$> names);
  VRT__init__ := λ _ a, inr (a, tt);
  _create_bands := λ _ a, inr (a, tt);
  _set_envisat_time := λ _ a, inr (a, tt);
  add_geolocation_from_ads := λ _ _ _ a, inr (a, tt)
|}.

(** [Mapper("MER.N1", ds, {"MPH_PRODUCT": "MER_RR__1PQ"})] on a header
    holding the factors [gads]. *)
Definition stored_run (gads : list Z) : Run (BC := stored_gads) unit :=
  Mapper__init__ (BC := stored_gads) "MER.N1" tt
    {[ "MPH_PRODUCT" := "MER_RR__1PQ" ]} false 500 1
    (MkWorld (BC := stored_gads) [] gads ∅).

(** A store that already holds a dictionary of somebody else. *)
Definition busy_world : World (BC := demo) :=
  MkWorld (BC := demo) [radiance "other.N1" 1 "413"] (None : option string) ∅.

Lemma store_frame_witness :
  heap busy_world !! 0%nat = Some (radiance "other.N1" 1 "413")
  ∧ heap (world (Mapper__init__ (BC := demo) "MER.N1" tt
                   {[ "MPH_PRODUCT" := "MER_FRS_1_TEST" ]} true 500 1
                   busy_world)) !! 0%nat =
    Some (radiance "other.N1" 1 "413").
Proof.
  split; [reflexivity|]. apply (store_frame (BC := demo)). reflexivity.
Defined.


Lemma never_KeyError_witness :
  outcome (Mapper__init__ (BC := demo) "MER.N1" tt ∅ true 500 1 demo_world) =
    inl KeyError
  ∧ last (trace (Mapper__init__ (BC := demo) "MER.N1" tt ∅ true 500 1
                   demo_world)) ≫= event_exn = Some KeyError.
Proof.
  split; [reflexivity|]. apply (never_KeyError (BC := demo)). reflexivity.
Defined.

Lemma short_scales_stop_early_witness :
  outcome (stored_run [10; 20; 30]) = inl IndexError
  ∧ trace (stored_run [10; 20; 30]) =
    [ EvEnvisatInit (BC := stored_gads) "MER.N1"
        {[ "MPH_PRODUCT" := "MER_RR__1PQ" ]} (inr "MER_RR__1PQ");
      EvReadScalingGads (BC := stored_gads) (py_range 7 22)
        (inr [10; 20; 30]) ]
  ∧ ads_requests (trace (stored_run [10; 20; 30])) = []
  ∧ created_bands (trace (stored_run [10; 20; 30])) = []
  ∧ subVRTs (world (stored_run [10; 20; 30])) = ∅
  ∧ base (world (stored_run [10; 20; 30])) = [10; 20; 30].
Proof.
  apply (short_scales_stop_early (BC := stored_gads) "MER.N1" tt
           {[ "MPH_PRODUCT" := "MER_RR__1PQ" ]} false 500 1
           (MkWorld (BC := stored_gads) [] [10; 20; 30] ∅)
           [10; 20; 30] "MER_RR__1PQ" [10; 20; 30] [10; 20; 30]).
  - reflexivity.
  - right. reflexivity.
  - reflexivity.
  - vm_compute. lia.
Defined.

Lemma only_first_15_scales_matter_witness :
  outcome (stored_run (seqZ 1 15)) = inr tt
  ∧ outcome (stored_run (seqZ 1 15 ++ [99])) = inr tt
  ∧ take 15 (seqZ 1 15) = take 15 (seqZ 1 15 ++ [99])
  ∧ created_bands (trace (stored_run (seqZ 1 15))) =
    created_bands (trace (stored_run (seqZ 1 15 ++ [99]))).
Proof.
  split; [by vm_compute|]. split; [by vm_compute|].
  split; [reflexivity|]. unfold stored_run.
  apply (only_first_15_scales_matter (BC := stored_gads) "MER.N1" tt
           {[ "MPH_PRODUCT" := "MER_RR__1PQ" ]} false 500 1 _ _
           (seqZ 1 15) (seqZ 1 15 ++ [99])
           ((λ n, MkVRT ("/vsimem/" +:+ n) {[ "name" := n ]}) <$> adsNames));
    vm_compute; reflexivity.
Defined.

Lemma ads_metadata_pass_through_witness :
  outcome (demo_run "MER_FRS_1_TEST" false) = inr tt
  ∧ ∃ bands vrts,
      created_bands (trace (demo_run "MER_FRS_1_TEST" false)) = [bands]
      ∧ ads_requests (trace (demo_run "MER_FRS_1_TEST" false)) = [inr vrts]
      ∧ ∀ j v, vrts !! j = Some v →
          ∃ b, bands !! (16 + j)%nat = Some b
            ∧ dst b !! "name" =
              Some (match RasterBand1 v !! "name" with
                    | Some s => VStr s
                    | None => VNone
                    end)
            ∧ dst b !! "units" =
              Some (match RasterBand1 v !! "units" with
                    | Some s => VStr s
                    | None => VNone
                    end)
            ∧ ∀ k, k ≠ "name" → k ≠ "units" → dst b !! k = None.
Proof.
  split; [by vm_compute|]. unfold demo_run.
  apply (ads_metadata_pass_through (BC := demo)). by vm_compute.
Defined.

Lemma recognized_iff_starts_with_witness :
  ¬ (outcome (demo_run "MER_RR__1PQ" false) = inl WrongMapperError
     ∧ last (trace (demo_run "MER_RR__1PQ" false)) ≫= event_exn = None)
  ↔ ∃ rest, "MER_RR__1PQ" = "MER_FRS_1" +:+ rest
            ∨ "MER_RR__1PQ" = "MER_RR__1" +:+ rest.
Proof.
  unfold demo_run.
  apply (recognized_iff_starts_with (BC := demo) "MER.N1" tt
           {[ "MPH_PRODUCT" := "MER_RR__1PQ" ]} false 500 1 demo_world
           (Some "MER_RR__1PQ") "MER_RR__1PQ").
  reflexivity.
Defined.

Lemma table_values_kept_witness :
  outcome (demo_run "MER_FRS_1_TEST" true) = inr tt
  ∧ ∃ bands,
      created_bands (trace (demo_run "MER_FRS_1_TEST" true)) = [bands]
      ∧ ∀ i b0, metaDict_literal "MER.N1" !! i = Some b0 →
          ∃ b, bands !! i = Some b ∧ src b0 ⊆ src b ∧ dst b0 ⊆ dst b.
Proof.
  split; [by vm_compute|]. unfold demo_run.
  apply (table_values_kept (BC := demo)). by vm_compute.
Defined.

Lemma static_suffixes_distinct_witness :
  outcome (demo_run "MER_RR__1PQ" false) = inr tt
  ∧ ∃ bands,
      created_bands (trace (demo_run "MER_RR__1PQ" false)) = [bands]
      ∧ ∀ i j, (i < 16)%nat → (j < 16)%nat → i ≠ j →
          ∃ bi bj si sj,
            bands !! i = Some bi ∧ bands !! j = Some bj
            ∧ dst bi !! "suffix" = Some si ∧ dst bj !! "suffix" = Some sj
            ∧ si ≠ sj.
Proof.
  split; [by vm_compute|]. unfold demo_run.
  apply (static_suffixes_distinct (BC := demo)). by vm_compute.
Defined.
